(** * finance_tracker.py: the ledger and its reports

    A shallow embedding of the transaction / account / report core of
    [finance_tracker.py], and the properties of it that the specification
    states.

    Conventions of the embedding.
    - [amount], [balance] and the report totals are Python [float]s, that
      is IEEE 754 binary64 numbers.  They are embedded as [spec_float], the
      specification of floating-point numbers of the standard library, at
      precision 53 and maximal exponent 1024: [+] and [-] round to the
      nearest number, ties to even, and [<=] and [<] are false on NaN.
    - The methods of [Account] and the static methods of [ReportGenerator]
      run in the monad [action]: they receive the account object, may
      assign to its fields and may raise.  The account is returned with the
      outcome in both cases, since a Python exception does not roll back
      assignments made before it.
    - The three classes [Transaction], [Income] and [Expense] share their
      fields; an object is a record that carries its class, and
      [isinstance(tx, Income)] is a test on it.
    - A [string] is a sequence of characters with code below 256.  The
      functions of the menu run in the monad [io], which adds the lines of
      the standard input and the texts written to the standard output to the
      account; [float] and the two-decimal format of numbers are parameters
      of these functions. *)

From Stdlib Require Import ZArith SpecFloat Ascii String.
From stdpp Require Import gmap strings list sorting pretty.

(** ** Floating-point numbers *)

Abbreviation float64 := spec_float.

Definition fadd : float64 → float64 → float64 := SFadd 53 1024.
Definition fsub : float64 → float64 → float64 := SFsub 53 1024.
Definition fleb : float64 → float64 → bool := SFleb.
Definition fltb : float64 → float64 → bool := SFltb.
Definition feqb : float64 → float64 → bool := SFeqb.

(** [0.0], which is also what the integer [0] becomes in an operation with
    a float. *)
Definition zero : float64 := S754_zero false.

(** [float(n)] for an integer [n]. *)
Definition float_of_Z (n : Z) : float64 := binary_normalize 53 1024 n 0 false.

(** The float that a decimal literal denotes, given as a fraction: [0.1] is
    [decimal 1 10], the float nearest to one tenth. *)
Definition decimal (n d : Z) : float64 :=
  SFdiv 53 1024 (float_of_Z n) (float_of_Z d).

Declare Scope float64_scope.
Delimit Scope float64_scope with float64.
Notation "0" := zero : float64_scope.
Notation "x + y" := (fadd x y) : float64_scope.
Notation "x - y" := (fsub x y) : float64_scope.
Notation "x <= y" := (fleb x y = true) : float64_scope.
Notation "x < y" := (fltb x y = true) : float64_scope.

Local Open Scope float64_scope.

(** ** Dates and the month-year key *)

(** [datetime]: the calendar fields.  [parse_date] builds dates from
    ["%d-%m-%Y"], so that the time of day is always midnight; no function of
    the core reads it. *)
Record datetime : Type := mk_datetime {
  year : Z;
  month : Z;
  day : Z
}.

(** The range of the fields of a Python [datetime]. *)
Definition valid_date (d : datetime) : Prop :=
  (1 <= year d <= 9999)%Z ∧ (1 <= month d <= 12)%Z ∧ (1 <= day d <= 31)%Z.

Definition digit (n : Z) : ascii := ascii_of_N (Z.to_N (48 + n mod 10)).

(** ["%m"]: the month as two decimal digits. *)
Definition strf_m (n : Z) : string :=
  String (digit (n / 10)) (String (digit n) EmptyString).

(** A number below 10000 as four decimal digits, with leading zeros. *)
Definition four_digits (n : Z) : string :=
  String (digit (n / 1000)) (String (digit (n / 100)) (strf_m n)).

(** ["%Y"]: the year in decimal.  CPython 3.11 hands the directive to the C
    library, and the GNU C library writes the year without padding: a year
    below 1000 has fewer than four digits. *)
Definition strf_Y (n : Z) : string :=
  if decide (n < 10)%Z then String (digit n) EmptyString
  else if decide (n < 100)%Z then strf_m n
  else if decide (n < 1000)%Z then String (digit (n / 100)) (strf_m n)
  else four_digits n.

(** [date.strftime("%m-%Y")] *)
Definition month_year_key (date : datetime) : string :=
  strf_m (month date) +:+ "-" +:+ strf_Y (year date).

(** The key as the specification and the docstring of [month_year_key]
    describe it: two digits of month, a dash, four digits of year. *)
Definition format_MM_YYYY (date : datetime) : string :=
  strf_m (month date) +:+ "-" +:+ four_digits (year date).

(** ** Transactions *)

Inductive class : Type := TransactionCls | IncomeCls | ExpenseCls.

#[global] Instance class_eq_dec : EqDecision class.
Proof. solve_decision. Defined.

Record Transaction : Type := mk_Transaction {
  class_of : class;
  amount : float64;
  category : string;
  date : datetime;
  description : string
}.

(** The constructors of the two subclasses. *)
Definition Income (amount : float64) (category : string) (date : datetime)
    (description : string) : Transaction :=
  mk_Transaction IncomeCls amount category date description.

Definition Expense (amount : float64) (category : string) (date : datetime)
    (description : string) : Transaction :=
  mk_Transaction ExpenseCls amount category date description.

(** [isinstance(tx, Income)] and [isinstance(tx, Expense)]: neither subclass
    has a subclass of its own. *)
Definition is_Income (tx : Transaction) : bool :=
  bool_decide (class_of tx = IncomeCls).

Definition is_Expense (tx : Transaction) : bool :=
  bool_decide (class_of tx = ExpenseCls).

(** ** The account and the monad of its methods *)

Record Account : Type := mk_Account {
  balance : float64;
  transactions : list Transaction
}.

(** [Account()]: balance [0.0], and [__post_init__] replaces the [None]
    default of [transactions] by a fresh empty list. *)
Definition Account_new : Account := mk_Account 0 [].

Inductive exn : Type :=
  | ValueError (msg : string)
  | NotImplementedError.

Inductive outcome (A : Type) : Type :=
  | Return (a : A)
  | Raise (e : exn).
Arguments Return {A} a.
Arguments Raise {A} e.

Definition action (A : Type) : Type := Account → outcome A * Account.

#[global] Instance action_ret : MRet action :=
  λ A (a : A) acc, (Return a, acc).

Definition raise {A} (e : exn) : action A := λ acc, (Raise e, acc).

(** Sequencing: an exception of the first statement skips the rest, with
    the account as the first statement left it. *)
#[global] Instance action_bind : MBind action :=
  λ A B (k : A → action B) (m : action A) acc,
    match m acc with
    | (Return a, acc') => k a acc'
    | (Raise e, acc') => (Raise e, acc')
    end.

Definition get_balance : action float64 := λ acc, (Return (balance acc), acc).

Definition set_balance (b : float64) : action unit :=
  λ acc, (Return tt, mk_Account b (transactions acc)).

Definition get_transactions : action (list Transaction) :=
  λ acc, (Return (transactions acc), acc).

(** [self.transactions.append(tx)] *)
Definition append (tx : Transaction) : action unit :=
  λ acc, (Return tt, mk_Account (balance acc) (transactions acc ++ [tx])).

(** [tx.apply(account)], dispatched on the class of [tx]. *)
Definition apply (tx : Transaction) : action unit :=
  match class_of tx with
  | TransactionCls => raise NotImplementedError
  | IncomeCls => b ← get_balance; set_balance (b + amount tx)
  | ExpenseCls => b ← get_balance; set_balance (b - amount tx)
  end.

(** [Account.add] *)
Definition add (tx : Transaction) : action unit :=
  if fleb (amount tx) 0
  then raise (ValueError "Amount must be positive.")
  else (apply tx;; append tx).

(** [Account.by_month]: the list comprehension keeps the transactions whose
    key equals [month_year], in the order of [self.transactions]. *)
Definition by_month (month_year : string) : action (list Transaction) :=
  txs ← get_transactions;
  mret (filter (λ t, month_year_key (date t) = month_year) txs).

(** ** Reports *)

Record Report : Type := mk_Report {
  total_income : float64;
  total_expense : float64;
  net : float64;
  income_by_cat : gmap string float64;
  expense_by_cat : gmap string float64
}.

(** [Report()]: the three totals default to [0.0] and [__post_init__] sets
    both dictionaries to [{}]. *)
Definition Report_new : Report := mk_Report 0 0 0 ∅ ∅.

(** [d[k] = d.get(k, 0) + x] *)
Definition accumulate (d : gmap string float64) (k : string) (x : float64) :
    gmap string float64 :=
  <[k := default 0 (d !! k) + x]> d.

(** One iteration of the loop of [ReportGenerator.monthly]: the [if] /
    [elif] on the class of [tx]; an object of the base class changes
    nothing. *)
Definition monthly_body (report : Report) (tx : Transaction) : Report :=
  if is_Income tx then
    mk_Report (total_income report + amount tx) (total_expense report)
      (net report)
      (accumulate (income_by_cat report) (category tx) (amount tx))
      (expense_by_cat report)
  else if is_Expense tx then
    mk_Report (total_income report) (total_expense report + amount tx)
      (net report) (income_by_cat report)
      (accumulate (expense_by_cat report) (category tx) (amount tx))
  else report.

(** [report.net = report.total_income - report.total_expense] *)
Definition set_net (report : Report) : Report :=
  mk_Report (total_income report) (total_expense report)
    (total_income report - total_expense report)
    (income_by_cat report) (expense_by_cat report).

(** [ReportGenerator.monthly] *)
Definition monthly (month_year : string) : action Report :=
  txs ← by_month month_year;
  mret (set_net (fold_left monthly_body txs Report_new)).

(** Python's [sum] on floats, as CPython 3.11 computes it: the items are
    added to [0] from left to right, each addition rounded.  (From CPython
    3.12 on, [sum] carries a compensation term.) *)
Definition sum (xs : list float64) : float64 := fold_left fadd xs 0.

(** [ReportGenerator.print_all_time].  The result is the triple of numbers
    that the method prints: total income, total expense, net savings. *)
Definition print_all_time : action (float64 * float64 * float64) :=
  txs ← get_transactions;
  let income := sum (amount <$> filter is_Income txs) in
  let expense := sum (amount <$> filter is_Expense txs) in
  mret (income, expense, income - expense).

(** ** Runs of [add] *)

(** [history acc txs]: [acc] is the account after a run of calls of [add],
    each of which returned, on a new account; [txs] lists the arguments of
    the calls, the first call first. *)
Inductive history : Account → list Transaction → Prop :=
  | history_new : history Account_new []
  | history_add acc acc' txs tx :
      history acc txs →
      add tx acc = (Return tt, acc') →
      history acc' (txs ++ [tx]).

(** The amounts of the transactions that pass a class test, summed as
    [print_all_time] sums them. *)
Definition total_of (P : Transaction → bool) (txs : list Transaction) : float64 :=
  sum (amount <$> filter P txs).

Definition income_of : list Transaction → float64 := total_of is_Income.

Definition expense_of : list Transaction → float64 := total_of is_Expense.

(** The effect of a transaction on a balance, and the balance that a run of
    effects gives from [0.0]: the additions and subtractions of [apply], in
    the order of the transactions. *)
Definition effect (b : float64) (tx : Transaction) : float64 :=
  match class_of tx with
  | TransactionCls => b
  | IncomeCls => b + amount tx
  | ExpenseCls => b - amount tx
  end.

Definition running_balance (txs : list Transaction) : float64 :=
  fold_left effect txs 0.

(** The month-year keys present in an account, each once. *)
Definition month_keys (acc : Account) : list string :=
  remove_dups ((λ t, month_year_key (date t)) <$> transactions acc).

(** ** What the specification says of the month filter *)

(** [selected P l r]: [r] is the subsequence of [l] made of the elements
    that satisfy [P], each as often as it occurs in [l] and in the order of
    [l]. *)
Inductive selected {A} (P : A → Prop) : list A → list A → Prop :=
  | selected_nil : selected P [] []
  | selected_keep x l r : P x → selected P l r → selected P (x :: l) (x :: r)
  | selected_skip x l r : ¬ P x → selected P l r → selected P (x :: l) r.

(** ** Category dictionaries *)

(** The transactions of a list that carry the category [c]. *)
Definition of_category (c : string) (txs : list Transaction) : list Transaction :=
  filter (λ t, category t = c) txs.

(** The dictionary entry that a transaction contributes to, and the update
    of the loop of [monthly] on it. *)
Definition entry (t : Transaction) : string * float64 := (category t, amount t).

Definition accumulate_entry (d : gmap string float64) (e : string * float64) :
    gmap string float64 :=
  accumulate d e.1 e.2.

(** ** Parsing dates *)

(** [parse_date] calls [datetime.strptime(date_str, "%d-%m-%Y")].  The
    library turns the format into the regular expression
    [(?P<d>3[0-1]|[1-2]\d|0[1-9]|[1-9]| [1-9])-(?P<m>1[0-2]|0[1-9]|[1-9])-(?P<Y>\d\d\d\d)],
    matches it at the start of the text, refuses text that remains after the
    match, converts the three groups to integers and builds the date, which
    fails for year 0 and for a day that the month does not have.  Each of
    these failures is a [ValueError].

    A [string] is read as a sequence of characters with code below 256;
    among these the class [\d] holds the ten ASCII digits only. *)

Section DateParsing.
Local Open Scope Z_scope.

Definition digit_value (c : ascii) : option Z :=
  let n := Z.of_N (N_of_ascii c) in
  if decide (48 <= n <= 57) then Some (n - 48) else None.

(** A character class [[lo-hi]] of digits: the value of the digit and the
    rest of the text. *)
Definition digit_in (lo hi : Z) (s : string) : option (Z * string) :=
  match s with
  | String c r =>
      v ← digit_value c;
      if decide (lo <= v <= hi) then Some (v, r) else None
  | EmptyString => None
  end.

(** Two classes in a row, read as a number of two digits. *)
Definition two_digits (lo1 hi1 lo2 hi2 : Z) (s : string) : option (Z * string) :=
  '(a, r) ← digit_in lo1 hi1 s;
  '(b, r') ← digit_in lo2 hi2 r;
  Some (10 * a + b, r').

Definition literal (c : ascii) (s : string) : option string :=
  match s with
  | String c' r => if decide (c' = c) then Some r else None
  | EmptyString => None
  end.

(** The alternatives of a group that match, in the order in which the
    matcher tries them. *)
Definition alternatives {A} (alts : list (option A)) : list A := omap id alts.

(** [3[0-1]|[1-2]\d|0[1-9]|[1-9]| [1-9]] *)
Definition match_d (s : string) : list (Z * string) :=
  alternatives
    [two_digits 3 3 0 1 s; two_digits 1 2 0 9 s; two_digits 0 0 1 9 s;
     digit_in 1 9 s; r ← literal " " s; digit_in 1 9 r].

(** [1[0-2]|0[1-9]|[1-9]] *)
Definition match_m (s : string) : list (Z * string) :=
  alternatives [two_digits 1 1 0 2 s; two_digits 0 0 1 9 s; digit_in 1 9 s].

(** [\d\d\d\d] *)
Definition match_Y (s : string) : list (Z * string) :=
  alternatives
    ['(a, r) ← two_digits 0 9 0 9 s; '(b, r') ← two_digits 0 9 0 9 r;
     Some (100 * a + b, r')].

Definition match_literal (c : ascii) (s : string) : list string :=
  alternatives [literal c s].

(** The first match of the whole expression in backtracking order: day,
    month, year and the text that remains. *)
Definition format_match (s : string) : option (Z * Z * Z * string) :=
  head ('(d, r1) ← match_d s; r2 ← match_literal "-" r1;
        '(m, r3) ← match_m r2; r4 ← match_literal "-" r3;
        '(y, r5) ← match_Y r4; [(d, m, y, r5)]).

Definition is_leap (y : Z) : bool :=
  bool_decide (y mod 4 = 0) &&
  (negb (bool_decide (y mod 100 = 0)) || bool_decide (y mod 400 = 0)).

Definition days_in_month (y m : Z) : Z :=
  if decide (m = 2) then (if is_leap y then 29 else 28)
  else if decide (m = 4 ∨ m = 6 ∨ m = 9 ∨ m = 11) then 30 else 31.

(** A date of the calendar. *)
Definition calendar_date (d : datetime) : Prop :=
  1 <= year d <= 9999 ∧ 1 <= month d <= 12 ∧
  1 <= day d <= days_in_month (year d) (month d).

(** [datetime.strptime(s, "%d-%m-%Y")]; [None] stands for its
    [ValueError]. *)
Definition strptime (s : string) : option datetime :=
  '(d, m, y, rest) ← format_match s;
  if decide (rest = EmptyString ∧ 1 <= y ∧ d <= days_in_month y m)
  then Some (mk_datetime y m d) else None.

End DateParsing.

(** [parse_date]: the [ValueError] of the library is replaced by one with
    the message of the program. *)
Definition parse_date (date_str : string) : outcome datetime :=
  match strptime date_str with
  | Some d => Return d
  | None => Raise (ValueError "Invalid date format. Use DD-MM-YYYY.")
  end.

(** [s.isascii()]: every character has a code below 128. *)
Definition isascii (s : string) : bool :=
  forallb (λ c, N_of_ascii c <? 128)%N (list_ascii_of_string s).

(** A date written as two digits of day, two of month and four of year,
    with dashes between: the text that the prompt of [main] asks for. *)
Definition date_text (d : datetime) : string :=
  strf_m (day d) +:+ "-" +:+ strf_m (month d) +:+ "-" +:+ four_digits (year d).

(** ** The month-year query of the menu *)

(** [c.isdigit()] for one character with code below 256: the ten ASCII
    digits and the superscripts two, three and one. *)
Definition isdigit_char (c : ascii) : bool :=
  let n := N_of_ascii c in
  ((48 <=? n) && (n <=? 57) || (n =? 178) || (n =? 179) || (n =? 185))%N.

(** [s.isdigit()]: at least one character, and digits only. *)
Definition isdigit (s : string) : bool :=
  match s with
  | EmptyString => false
  | String _ _ => forallb isdigit_char (list_ascii_of_string s)
  end.

(** [s.replace('-', '')] *)
Fixpoint replace_dash (s : string) : string :=
  match s with
  | EmptyString => EmptyString
  | String c r =>
      if decide (c = "-"%char) then replace_dash r else String c (replace_dash r)
  end.

(** The test of option 3 of [main],
    [len(my) != 7 or my[2] != '-' or not my.replace('-', '').isdigit()];
    the [or] reads [my[2]] only when the length is 7. *)
Definition invalid_month_year (my : string) : bool :=
  negb (String.length my =? 7)%nat
  || negb (bool_decide (String.get 2 my = Some "-"%char))
  || negb (isdigit (replace_dash my)).

(** ** The console *)

(** The functions of the menu read lines from the standard input and write
    to the standard output.  A [world] holds the account of [main], the
    lines not yet read (without their line ends) and the texts written so
    far, one per call of [print] or prompt of [input].

    A run stops with an exception of the program, with the [EOFError] that
    [input] raises when no line is left, or, for the two [while True] loops,
    when the number of iterations granted to the model is used up. *)
Record world : Type := mk_world {
  ledger : Account;
  stdin : list string;
  stdout : list string
}.

Inductive signal : Type :=
  | Raised (e : exn)
  | EOFError
  | OutOfFuel.

Inductive answer (A : Type) : Type :=
  | Ok (a : A)
  | Stop (s : signal).
Arguments Ok {A} a.
Arguments Stop {A} s.

Definition io (A : Type) : Type := world → answer A * world.

#[global] Instance io_ret : MRet io := λ A (a : A) w, (Ok a, w).

#[global] Instance io_bind : MBind io :=
  λ A B (k : A → io B) (m : io A) w,
    match m w with
    | (Ok a, w') => k a w'
    | (Stop s, w') => (Stop s, w')
    end.

Definition out_of_fuel {A} : io A := λ w, (Stop OutOfFuel, w).

(** [account = Account()] *)
Definition new_account : io unit :=
  λ w, (Ok tt, mk_world Account_new (stdin w) (stdout w)).

(** A method of the account, run on the account of [main]. *)
Definition on_account {A} (m : action A) : io A :=
  λ w, match m (ledger w) with
       | (Return a, acc) => (Ok a, mk_world acc (stdin w) (stdout w))
       | (Raise e, acc) => (Stop (Raised e), mk_world acc (stdin w) (stdout w))
       end.

(** A function that returns or raises without touching the account. *)
Definition of_outcome {A} (o : outcome A) : io A :=
  λ w, match o with
       | Return a => (Ok a, w)
       | Raise e => (Stop (Raised e), w)
       end.

(** [try: body except ValueError as e: handler(str(e))] *)
Definition try_except_ValueError (body : io unit) (handler : string → io unit) :
    io unit :=
  λ w, match body w with
       | (Stop (Raised (ValueError msg)), w') => handler msg w'
       | other => other
       end.

Definition newline : string := String "010"%char EmptyString.

(** [print(s)] *)
Definition print (s : string) : io unit :=
  λ w, (Ok tt, mk_world (ledger w) (stdin w) (stdout w ++ [s +:+ newline])).

(** [input(prompt)]: the prompt is written, then a line is read. *)
Definition input (prompt : string) : io string :=
  λ w, match stdin w with
       | line :: lines =>
           (Ok line, mk_world (ledger w) lines (stdout w ++ [prompt]))
       | [] => (Stop EOFError, mk_world (ledger w) [] (stdout w ++ [prompt]))
       end.

(** [c.isspace()] for a character with code below 256. *)
Definition isspace (c : ascii) : bool :=
  let n := N_of_ascii c in
  ((9 <=? n) && (n <=? 13) || (28 <=? n) && (n <=? 32)
   || (n =? 133) || (n =? 160))%N.

Fixpoint lstrip (s : string) : string :=
  match s with
  | EmptyString => EmptyString
  | String c r => if isspace c then lstrip r else s
  end.

Fixpoint rstrip (s : string) : string :=
  match s with
  | EmptyString => EmptyString
  | String c r =>
      match rstrip r with
      | EmptyString => if isspace c then EmptyString else String c EmptyString
      | r' => String c r'
      end
  end.

(** [s.strip()] *)
Definition strip (s : string) : string := rstrip (lstrip s).

(** [input_prompt] *)
Definition input_prompt (prompt : string) : io string :=
  line ← input prompt; mret (strip line).

(** [s * n] *)
Fixpoint repeat_string (s : string) (n : nat) : string :=
  match n with
  | O => EmptyString
  | S n' => s +:+ repeat_string s n'
  end.

(** [for x in xs: body(x)] *)
Fixpoint for_each {A} (xs : list A) (body : A → io unit) : io unit :=
  match xs with
  | [] => mret tt
  | x :: xs' => body x;; for_each xs' body
  end.

(** [sorted(d.items())].  The keys of a dictionary differ from one another,
    so the order of the pairs is the order of their keys, which are compared
    character by character, by code. *)
Definition sorted_items (d : gmap string float64) : list (string * float64) :=
  merge_sort (λ x y, String.leb x.1 y.1) (map_to_list d).

Section Console.

(** Two functions of Python that the embedding leaves open: [float(s)],
    with [None] for its [ValueError], and the formatting [f"{x:.2f}"]. *)
Variable float : string → option float64.
Variable format_2f : float64 → string.

(** [show_menu] *)
Definition show_menu (balance : float64) : io string :=
  print (newline +:+ repeat_string "=" 34);;
  print "     Personal Finance Tracker     ";;
  print (repeat_string "=" 34);;
  print ("Current Balance: Rs." +:+ format_2f balance);;
  print (repeat_string "-" 34);;
  print "1. Add Income";;
  print "2. Add Expense";;
  print "3. View Monthly Report";;
  print "4. View All-time Summary";;
  print "5. Exit";;
  input_prompt "Choose an option: ".

(** [read_amount]: one unit of [fuel] per iteration of the loop. *)
Fixpoint read_amount (fuel : nat) : io float64 :=
  match fuel with
  | O => out_of_fuel
  | S fuel' =>
      text ← input_prompt "Amount: ";
      match float text with
      | Some amt =>
          if fltb 0 amt then mret amt
          else (print "Amount must be positive.";; read_amount fuel')
      | None => print "Please enter a valid number.";; read_amount fuel'
      end
  end.

(** The lines of one dictionary in [print_monthly]. *)
Definition print_categories (d : gmap string float64) : io unit :=
  if decide (d = ∅) then print "  None"
  else for_each (sorted_items d)
         (λ '(cat, amt), print ("  " +:+ cat +:+ ": " +:+ format_2f amt)).

(** [ReportGenerator.print_monthly] *)
Definition print_monthly (month_year : string) : io unit :=
  r ← on_account (monthly month_year);
  print (newline +:+ "===== Monthly Report (" +:+ month_year +:+ ") =====");;
  print ("Total Income : " +:+ format_2f (total_income r));;
  print ("Total Expense: " +:+ format_2f (total_expense r));;
  print ("Net Savings  : " +:+ format_2f (net r));;
  print (newline +:+ "-- Income by Category --");;
  print_categories (income_by_cat r);;
  print (newline +:+ "-- Expense by Category --");;
  print_categories (expense_by_cat r);;
  print "============================";;
  balance ← on_account get_balance;
  print ("Current Balance: Rs." +:+ format_2f balance).

(** [ReportGenerator.print_all_time] with its output: the three numbers of
    [print_all_time], formatted and printed. *)
Definition print_all_time_lines : io unit :=
  '(income, expense, savings) ← on_account print_all_time;
  print (newline +:+ "===== All-Time Summary =====");;
  print ("Total Income : " +:+ format_2f income);;
  print ("Total Expense: " +:+ format_2f expense);;
  print ("Net Savings  : " +:+ format_2f savings);;
  print "============================".

(** Options 1 and 2 of [main] after their first [print]: the two branches
    differ in the class that they construct. *)
Definition add_transaction
    (make : float64 → string → datetime → string → Transaction) (fuel : nat) : io unit :=
  amount ← read_amount fuel;
  category ← input_prompt "Category: ";
  date_str ← input_prompt "Date (DD-MM-YYYY): ";
  desc ← input_prompt "Description (optional): ";
  try_except_ValueError
    (date ← of_outcome (parse_date date_str);
     on_account (add (make amount category date desc));;
     print "Transaction added successfully!")
    (λ msg, print ("Error: " +:+ msg)).

Definition user_name : string := "Ayush".

(** The loop of [main]: one unit of [fuel] per iteration. *)
Fixpoint main_loop (fuel : nat) : io unit :=
  match fuel with
  | O => out_of_fuel
  | S fuel' =>
      balance ← on_account get_balance;
      choice ← show_menu balance;
      if decide (choice = "1") then
        print "Adding Income...";; add_transaction Income fuel';;
        main_loop fuel'
      else if decide (choice = "2") then
        print "Adding Expense...";; add_transaction Expense fuel';;
        main_loop fuel'
      else if decide (choice = "3") then
        my ← input_prompt "Enter month and year (MM-YYYY): ";
        (if invalid_month_year my then print "Invalid format. Use MM-YYYY."
         else print_monthly my);;
        main_loop fuel'
      else if decide (choice = "4") then
        print_all_time_lines;; main_loop fuel'
      else if decide (choice = "5") then
        print ("Have a Great Month, " +:+ user_name +:+ "!")
      else
        print "Invalid option. Try again.";; main_loop fuel'
  end.

(** [main] *)
Definition main (fuel : nat) : io unit :=
  new_account;;
  print "Welcome to Personal Finance Tracker!";;
  main_loop fuel.

End Console.

(** ** What a run of the console keeps *)

(** The accounts that [main] can hold: reached by successful calls of
    [add], with positive amounts and dates of the calendar only. *)
Definition sound (acc : Account) : Prop :=
  ∃ txs, history acc txs ∧
         ∀ tx, tx ∈ txs → 0 < amount tx ∧ calendar_date (date tx).

(** [judged fuel k m Q E]: started on a sound account, [m] ends on a sound
    account; when it returns it has read at least [k] lines and its result
    satisfies [Q]; an exception that it raises satisfies [E]; it raises
    [EOFError] only with the input used up, and it falls short of
    iterations only when [fuel] is at most the number of lines it was
    given. *)
Definition judged {A} (fuel k : nat) (m : io A) (Q : A → Prop) (E : exn → Prop) :
    Prop :=
  ∀ w, sound (ledger w) →
    match m w with
    | (Ok a, w') =>
        sound (ledger w') ∧ (length (stdin w') + k ≤ length (stdin w))%nat ∧ Q a
    | (Stop (Raised e), w') =>
        sound (ledger w') ∧ (length (stdin w') ≤ length (stdin w))%nat ∧ E e
    | (Stop EOFError, w') => sound (ledger w') ∧ stdin w' = []
    | (Stop OutOfFuel, w') => sound (ledger w') ∧ (fuel ≤ length (stdin w))%nat
    end.

(** ** Sample data *)

(** The transactions of the scenario of the specification, dated in March
    2024, and one dated in April 2024. *)
Definition salary : Transaction :=
  Income (float_of_Z 1000) "Salary" (mk_datetime 2024 3 1) EmptyString.
Definition gift : Transaction :=
  Income (float_of_Z 200) "Gift" (mk_datetime 2024 3 15) EmptyString.
Definition food : Transaction :=
  Expense (float_of_Z 300) "Food" (mk_datetime 2024 3 20) EmptyString.
Definition rent : Transaction :=
  Expense (float_of_Z 450) "Rent" (mk_datetime 2024 4 2) EmptyString.

(** Amounts that are not binary fractions: an income of 0.1, an expense of
    0.3 and an income of 0.2 in March 2024, and incomes of 0.3 in April and
    of 0.7 in March. *)
Definition tenth : Transaction :=
  Income (decimal 1 10) "Tips" (mk_datetime 2024 3 4) EmptyString.
Definition three_tenths : Transaction :=
  Expense (decimal 3 10) "Snack" (mk_datetime 2024 3 5) EmptyString.
Definition fifth : Transaction :=
  Income (decimal 2 10) "Tips" (mk_datetime 2024 3 6) EmptyString.
Definition april_three_tenths : Transaction :=
  Income (decimal 3 10) "Tips" (mk_datetime 2024 4 7) EmptyString.
Definition seven_tenths : Transaction :=
  Income (decimal 7 10) "Tips" (mk_datetime 2024 3 8) EmptyString.

(** An income dated 1 March 999, as [parse_date] returns for the text
    01-03-0999. *)
Definition old_income : Transaction :=
  Income (float_of_Z 5) "Old" (mk_datetime 999 3 1) EmptyString.

(** Stand-ins for [float] and for the two-decimal format, for the examples
    that run the console: [sample_float] reads three texts, and
    [sample_format_2f] writes a finite number with its cents cut to two
    digits. *)
Definition sample_float (s : string) : option float64 :=
  if decide (s = "1000") then Some (float_of_Z 1000)
  else if decide (s = "-50") then Some (float_of_Z (-50))
  else if decide (s = "0") then Some 0
  else None.

Definition sample_format_2f (x : float64) : string :=
  match x with
  | S754_zero _ => "0.00"
  | S754_infinity s => if s then "-inf" else "inf"
  | S754_nan => "nan"
  | S754_finite s m e =>
      let cents :=
        (if decide (0 <= e) then Z.pos m * 2 ^ e * 100
         else Z.pos m * 100 / 2 ^ (- e))%Z in
      (if s then "-" else EmptyString) +:+
      pretty (cents / 100)%Z +:+ "." +:+ strf_m (cents mod 100)
  end.

(** The lines typed after option 1: a text that is no number, an amount
    that is not positive, then the fields of the Salary income, and the
    choice to leave. *)
Definition sample_world : world :=
  mk_world Account_new
    ["abc"; "-50"; " 1000 "; " Salary "; "01-03-2024"; EmptyString; "5"] [].

(** A session of [main]: the Salary income is entered, the summary is
    asked for and the program is left. *)
Definition sample_session : world :=
  mk_world Account_new
    ["1"; " 1000 "; " Salary "; "01-03-2024"; EmptyString; "4"; "5"] [].

(** * Properties *)

(** ** Floats and zero *)

(** A float above zero is not at most zero. *)
Lemma lt_zero_not_le (a : float64) : 0 < a → fleb a 0 = false.
Proof. by destruct a as [[]|[]| |[] m e]. Qed.

(** The floats that pass the test of [add]: those above zero, and NaN. *)
Lemma not_le_zero (a : float64) :
  fleb a 0 = false ↔ 0 < a ∨ a = S754_nan.
Proof.
  destruct a as [[]|[]| |[] m e]; cbn; split; intros H;
    try done; try (by left); try (by right); by destruct H.
Qed.

(** ** Sums *)

Lemma sum_nil : sum [] = 0.
Proof. reflexivity. Qed.

Lemma sum_snoc (xs : list float64) (x : float64) : sum (xs ++ [x]) = sum xs + x.
Proof. unfold sum. by rewrite fold_left_app. Qed.

Lemma total_of_snoc (P : Transaction → bool) (txs : list Transaction)
    (tx : Transaction) :
  total_of P (txs ++ [tx]) =
  if P tx then total_of P txs + amount tx else total_of P txs.
Proof.
  unfold total_of. rewrite filter_app, filter_cons, filter_nil.
  destruct (P tx) eqn:E.
  - rewrite decide_True by done. rewrite fmap_app. apply sum_snoc.
  - rewrite decide_False by (intros H; exact H). by rewrite app_nil_r.
Qed.

(** ** [Account.add] *)

(** The two [isinstance] tests, by the class of the object. *)
Lemma class_tests (tx : Transaction) :
  (is_Income tx, is_Expense tx) =
  match class_of tx with
  | TransactionCls => (false, false)
  | IncomeCls => (true, false)
  | ExpenseCls => (false, true)
  end.
Proof. unfold is_Income, is_Expense. by destruct (class_of tx). Qed.

(** The ways a call of [add] can end. *)
Lemma add_cases (tx : Transaction) (acc : Account) :
  (amount tx <= 0 ∧
   add tx acc = (Raise (ValueError "Amount must be positive."), acc)) ∨
  (fleb (amount tx) 0 = false ∧ class_of tx = TransactionCls ∧
   add tx acc = (Raise NotImplementedError, acc)) ∨
  (fleb (amount tx) 0 = false ∧ class_of tx = IncomeCls ∧
   add tx acc =
     (Return tt, mk_Account (balance acc + amount tx) (transactions acc ++ [tx]))) ∨
  (fleb (amount tx) 0 = false ∧ class_of tx = ExpenseCls ∧
   add tx acc =
     (Return tt, mk_Account (balance acc - amount tx) (transactions acc ++ [tx]))).
Proof.
  unfold add. destruct (fleb (amount tx) 0) eqn:E.
  - by left.
  - right. unfold apply.
    destruct (class_of tx); [left | right; left | right; right];
      by repeat split.
Qed.

Lemma history_scenario :
  history (mk_Account (float_of_Z 900) [salary; gift; food]) [salary; gift; food].
Proof.
  apply (history_add (mk_Account (float_of_Z 1200) [salary; gift]) _ [salary; gift] food);
    [|reflexivity].
  apply (history_add (mk_Account (float_of_Z 1000) [salary]) _ [salary] gift);
    [|reflexivity].
  apply (history_add Account_new _ [] salary); [|reflexivity].
  apply history_new.
Defined.

(** The run of the three amounts that are not binary fractions. *)
Lemma history_tenths :
  history (mk_Account (S754_finite false 4503599627370496 (-107))
             [tenth; three_tenths; fifth])
    [tenth; three_tenths; fifth].
Proof.
  apply (history_add
           (mk_Account (0 + decimal 1 10 - decimal 3 10) [tenth; three_tenths])
           _ [tenth; three_tenths] fifth); [|reflexivity].
  apply (history_add (mk_Account (0 + decimal 1 10) [tenth]) _ [tenth]
           three_tenths); [|reflexivity].
  apply (history_add Account_new _ [] tenth); [|reflexivity].
  apply history_new.
Defined.

Lemma running_balance_snoc (txs : list Transaction) (tx : Transaction) :
  running_balance (txs ++ [tx]) = effect (running_balance txs) tx.
Proof. unfold running_balance. by rewrite fold_left_app. Qed.

(** What a run of successful calls of [add] keeps. *)
Lemma history_invariant (acc : Account) (txs : list Transaction) :
  history acc txs →
  transactions acc = txs ∧
  balance acc = running_balance txs ∧
  ∀ tx, tx ∈ txs →
    fleb (amount tx) 0 = false ∧
    (class_of tx = IncomeCls ∨ class_of tx = ExpenseCls).
Proof.
  induction 1 as [|acc acc' txs tx Hacc (IHtxs & IHbal & IHall) Hadd].
  - split; [reflexivity|]. split; [reflexivity|].
    intros tx Htx. by apply elem_of_nil in Htx.
  - assert (fleb (amount tx) 0 = false →
            class_of tx = IncomeCls ∨ class_of tx = ExpenseCls →
            ∀ t, t ∈ txs ++ [tx] →
              fleb (amount t) 0 = false ∧
              (class_of t = IncomeCls ∨ class_of t = ExpenseCls)) as Hall.
    { intros Hle Hc t [Ht|Ht%list_elem_of_singleton]%elem_of_app.
      - by apply IHall.
      - by subst t. }
    destruct (add_cases tx acc)
      as [[_ E]|[(_ & _ & E)|[(Hle & Hc & E)|(Hle & Hc & E)]]];
      rewrite E in Hadd; try discriminate;
      injection Hadd as <-; simpl;
      rewrite IHtxs, running_balance_snoc; unfold effect;
      rewrite Hc, <- IHbal;
      (split; [reflexivity|]); (split; [reflexivity|]);
      apply Hall; auto.
Qed.

(** C1, as the specification states it, fails on the code: after the
    income 0.1, the expense 0.3 and the income 0.2 the balance is 2^-55
    (2.78e-17), while the sum of the incomes minus the sum of the expenses
    is 2^-54 (5.55e-17); the two floats are not equal. *)
Lemma balance_differs_from_income_minus_expense :
  history (mk_Account (S754_finite false 4503599627370496 (-107))
             [tenth; three_tenths; fifth])
    [tenth; three_tenths; fifth] ∧
  income_of [tenth; three_tenths; fifth] - expense_of [tenth; three_tenths; fifth]
    = S754_finite false 4503599627370496 (-106) ∧
  feqb (balance (mk_Account (S754_finite false 4503599627370496 (-107))
                   [tenth; three_tenths; fifth]))
       (income_of [tenth; three_tenths; fifth]
        - expense_of [tenth; three_tenths; fifth]) = false.
Proof.
  split; [exact history_tenths|]. split; vm_compute; reflexivity.
Qed.

(** C1, amended: after every run of successful [add] calls on a new
    account, the stored transactions are the added ones and the balance is
    the float obtained from 0.0 by adding the amount of each Income and
    subtracting the amount of each Expense, in the order of the calls, each
    operation rounded. *)
Theorem balance_is_running_balance (acc : Account) (txs : list Transaction) :
  history acc txs →
  transactions acc = txs ∧ balance acc = running_balance txs.
Proof.
  intros H. destruct (history_invariant acc txs H) as (E & Hbal & _).
  by split.
Qed.

Lemma balance_is_running_balance_witness :
  transactions (mk_Account (S754_finite false 4503599627370496 (-107))
                  [tenth; three_tenths; fifth])
    = [tenth; three_tenths; fifth] ∧
  balance (mk_Account (S754_finite false 4503599627370496 (-107))
             [tenth; three_tenths; fifth])
    = running_balance [tenth; three_tenths; fifth].
Proof.
  apply (balance_is_running_balance
           (mk_Account (S754_finite false 4503599627370496 (-107))
              [tenth; three_tenths; fifth])
           [tenth; three_tenths; fifth]).
  exact history_tenths.
Defined.

(** C2: for every account and every transaction whose amount is at most
    zero, [add] raises the [ValueError] "Amount must be positive." (the
    InvalidAmount error) and the account is as before the call: same
    balance, same list of transactions. *)
Theorem add_rejects_nonpositive_amount (acc : Account) (tx : Transaction) :
  amount tx <= 0 →
  add tx acc = (Raise (ValueError "Amount must be positive."), acc).
Proof.
  intros Hle. unfold add. by rewrite Hle.
Qed.

Lemma add_rejects_nonpositive_amount_witness :
  add (Expense (float_of_Z (-50)) "Food" (mk_datetime 2024 3 20) EmptyString)
      (mk_Account (float_of_Z 900) [salary; gift; food]) =
  (Raise (ValueError "Amount must be positive."),
   mk_Account (float_of_Z 900) [salary; gift; food]).
Proof.
  apply (add_rejects_nonpositive_amount
           (mk_Account (float_of_Z 900) [salary; gift; food])
           (Expense (float_of_Z (-50)) "Food" (mk_datetime 2024 3 20) EmptyString)).
  reflexivity.
Defined.

(** C9: when [add tx] returns, the account differs from the one before the
    call in this only: [tx] is the new last element of the transactions
    (those stored before keep their places) and the balance has moved by
    [+ amount tx] for an Income, by [- amount tx] for an Expense. *)
Theorem add_effect (acc acc' : Account) (tx : Transaction) :
  add tx acc = (Return tt, acc') →
  (class_of tx = IncomeCls ∧
   acc' = mk_Account (balance acc + amount tx) (transactions acc ++ [tx])) ∨
  (class_of tx = ExpenseCls ∧
   acc' = mk_Account (balance acc - amount tx) (transactions acc ++ [tx])).
Proof.
  intros Hadd.
  destruct (add_cases tx acc)
    as [[_ E]|[(_ & _ & E)|[(_ & Hc & E)|(_ & Hc & E)]]];
    rewrite E in Hadd; try discriminate; injection Hadd as <-; auto.
Qed.

Lemma add_effect_witness :
  (class_of food = IncomeCls ∧
   mk_Account (float_of_Z 900) [salary; gift; food] =
   mk_Account (float_of_Z 1200 + amount food) ([salary; gift] ++ [food])) ∨
  (class_of food = ExpenseCls ∧
   mk_Account (float_of_Z 900) [salary; gift; food] =
   mk_Account (float_of_Z 1200 - amount food) ([salary; gift] ++ [food])).
Proof.
  apply (add_effect (mk_Account (float_of_Z 1200) [salary; gift])
           (mk_Account (float_of_Z 900) [salary; gift; food]) food).
  reflexivity.
Defined.

(** C10: for every account and every object [tx] of the base class
    [Transaction] with a positive amount, [add tx] fails with
    [NotImplementedError], raised by [apply], and the account is as before
    the call: same balance, and [tx] is not appended. *)
Theorem add_base_class_raises (acc : Account) (tx : Transaction) :
  class_of tx = TransactionCls →
  0 < amount tx →
  add tx acc = (Raise NotImplementedError, acc).
Proof.
  intros Hc Hpos. apply lt_zero_not_le in Hpos.
  destruct (add_cases tx acc)
    as [[Hle _]|[(_ & _ & E)|[(_ & Hc' & _)|(_ & Hc' & _)]]];
    congruence.
Qed.

Lemma add_base_class_raises_witness :
  add (mk_Transaction TransactionCls (float_of_Z 25) "Misc"
         (mk_datetime 2024 3 9) EmptyString)
      (mk_Account (float_of_Z 900) [salary; gift; food]) =
  (Raise NotImplementedError, mk_Account (float_of_Z 900) [salary; gift; food]).
Proof.
  apply (add_base_class_raises
           (mk_Account (float_of_Z 900) [salary; gift; food])
           (mk_Transaction TransactionCls (float_of_Z 25) "Misc"
              (mk_datetime 2024 3 9) EmptyString)).
  - reflexivity.
  - reflexivity.
Defined.

(** ** The month-year key *)

Example month_year_key_march_2024 :
  month_year_key (mk_datetime 2024 3 20) = "03-2024"%string.
Proof. reflexivity. Qed.

Lemma digit_inj (a b : Z) : digit a = digit b → (a mod 10 = b mod 10)%Z.
Proof.
  unfold digit. intros H.
  pose proof (Z.mod_pos_bound a 10 eq_refl) as Ha.
  pose proof (Z.mod_pos_bound b 10 eq_refl) as Hb.
  apply (f_equal N_of_ascii) in H.
  rewrite !N_ascii_embedding in H by lia.
  lia.
Qed.

Lemma month_year_key_chars (d : datetime) :
  month_year_key d =
  String (digit (month d / 10)) (String (digit (month d))
    (String "-" (strf_Y (year d)))).
Proof. reflexivity. Qed.

(** From the year 1000 on the key is the MM-YYYY of the specification. *)
Lemma month_year_key_four_digits (d : datetime) :
  (1000 <= year d)%Z → month_year_key d = format_MM_YYYY d.
Proof.
  intros Hy. unfold month_year_key, format_MM_YYYY, strf_Y.
  by rewrite !decide_False by lia.
Qed.

Lemma strf_Y_inj (y1 y2 : Z) :
  (1 <= y1 <= 9999)%Z → (1 <= y2 <= 9999)%Z →
  strf_Y y1 = strf_Y y2 → y1 = y2.
Proof.
  intros Hy1 Hy2. unfold strf_Y, four_digits, strf_m.
  repeat case_decide; intros Hs; simplify_eq;
    repeat match goal with
           | E : digit _ = digit _ |- _ => apply digit_inj in E
           end;
    Z.div_mod_to_equations; lia.
Qed.

(** X8: two dates have the same key exactly when they have the same month
    and the same year, so that no two months share a report. *)
Lemma month_year_key_inj (d1 d2 : datetime) :
  valid_date d1 → valid_date d2 →
  month_year_key d1 = month_year_key d2 ↔
  month d1 = month d2 ∧ year d1 = year d2.
Proof.
  intros (Hy1 & Hm1 & _) (Hy2 & Hm2 & _). split.
  - rewrite !month_year_key_chars. intros H.
    injection H as M1 M0 HY.
    apply digit_inj in M1, M0. apply strf_Y_inj in HY; [|done..].
    split; [|done]. Z.div_mod_to_equations; lia.
  - intros [Hm Hy]. unfold month_year_key. by rewrite Hm, Hy.
Qed.

(** ** [Account.by_month] *)

Lemma by_month_run (month_year : string) (acc : Account) :
  by_month month_year acc =
  (Return (filter (λ t, month_year_key (date t) = month_year) (transactions acc)),
   acc).
Proof. reflexivity. Qed.

Lemma filter_selected {A} (P : A → Prop) `{∀ x, Decision (P x)} (l : list A) :
  selected P l (filter P l).
Proof.
  induction l as [|x l IH]; [constructor|].
  rewrite filter_cons. destruct (decide (P x)); by constructor.
Qed.

Lemma selected_unique {A} (P : A → Prop) (l r1 r2 : list A) :
  selected P l r1 → selected P l r2 → r1 = r2.
Proof.
  intros H1. revert r2.
  induction H1 as [|x l r HP _ IH|x l r HP _ IH]; intros r2 H2;
    inversion H2; subst;
    first [done | by apply IH | f_equal; by apply IH].
Qed.

Lemma selected_none {A} (P : A → Prop) (l r : list A) :
  selected P l r → (∀ x, x ∈ l → ¬ P x) → r = [].
Proof.
  induction 1 as [|x l r HP _ IH|x l r HP _ IH]; intros Hno; [done| |].
  - destruct (Hno x); [left | done].
  - apply IH. intros y Hy. apply Hno. by right.
Qed.

(** Two tests that agree on the elements of a list select the same. *)
Lemma selected_ext {A} (P P' : A → Prop) (l r : list A) :
  (∀ x, x ∈ l → (P x ↔ P' x)) → selected P l r → selected P' l r.
Proof.
  intros Hext H. induction H as [|x l r HP _ IH|x l r HP _ IH].
  - constructor.
  - apply selected_keep; [apply Hext; [left|done]|].
    apply IH. intros y Hy. apply Hext. by right.
  - apply selected_skip; [rewrite <- Hext; [done|left]|].
    apply IH. intros y Hy. apply Hext. by right.
Qed.

(** C5: the month filter on a date before the year 1000.  The docstrings
    of [month_year_key] and [by_month] promise the key MM-YYYY, as the
    specification does.  The income dated 1 March 999, which [parse_date]
    returns for the text 01-03-0999 and [add] stores, has 03-0999 as its two
    digits of month, dash and four digits of year; [month_year_key] gives it
    03-999, and [by_month] called with 03-0999 returns the empty list, not
    the list that holds the transaction. *)
Theorem by_month_misses_year_999 :
  parse_date "01-03-0999" = Return (date old_income) ∧
  add old_income Account_new =
    (Return tt, mk_Account (float_of_Z 5) [old_income]) ∧
  format_MM_YYYY (date old_income) = "03-0999"%string ∧
  month_year_key (date old_income) = "03-999"%string ∧
  selected (λ t, format_MM_YYYY (date t) = "03-0999"%string)
    [old_income] [old_income] ∧
  by_month "03-0999" (mk_Account (float_of_Z 5) [old_income]) =
    (Return [], mk_Account (float_of_Z 5) [old_income]).
Proof.
  split; [vm_compute; reflexivity|]. split; [reflexivity|].
  split; [reflexivity|]. split; [reflexivity|].
  split; [|reflexivity].
  apply selected_keep; [reflexivity | constructor].
Qed.

(** X20: on every account whose dates have a year from 1000 on, and for
    every key, [by_month] returns the subsequence of the stored
    transactions whose date has the key as its two digits of month, dash and
    four digits of year, in the order of insertion, and leaves the account as
    it was; it is the only such sequence, and it is empty when no
    transaction matches. *)
Theorem by_month_selects (month_year : string) (acc : Account) :
  (∀ t, t ∈ transactions acc → (1000 <= year (date t))%Z) →
  ∃ txs,
    by_month month_year acc = (Return txs, acc) ∧
    selected (λ t, format_MM_YYYY (date t) = month_year) (transactions acc) txs ∧
    (∀ txs', selected (λ t, format_MM_YYYY (date t) = month_year)
               (transactions acc) txs' → txs' = txs) ∧
    ((∀ t, t ∈ transactions acc → format_MM_YYYY (date t) ≠ month_year) →
     txs = []).
Proof.
  intros Hyears. eexists. split; [apply by_month_run|].
  assert (selected (λ t, format_MM_YYYY (date t) = month_year)
            (transactions acc)
            (filter (λ t, month_year_key (date t) = month_year)
               (transactions acc))) as Hsel.
  { eapply selected_ext; [|apply filter_selected].
    intros t Ht. simpl. by rewrite month_year_key_four_digits by auto. }
  split; [exact Hsel|]. split.
  - intros txs' H'. exact (selected_unique _ _ _ _ H' Hsel).
  - intros Hno. exact (selected_none _ _ _ Hsel Hno).
Qed.

Lemma by_month_selects_witness :
  ∃ txs,
    by_month "03-2024" (mk_Account (float_of_Z 450) [salary; gift; food; rent]) =
      (Return txs, mk_Account (float_of_Z 450) [salary; gift; food; rent]) ∧
    selected (λ t, format_MM_YYYY (date t) = "03-2024"%string)
      (transactions (mk_Account (float_of_Z 450) [salary; gift; food; rent])) txs ∧
    (∀ txs', selected (λ t, format_MM_YYYY (date t) = "03-2024"%string)
               (transactions (mk_Account (float_of_Z 450) [salary; gift; food; rent]))
               txs' → txs' = txs) ∧
    ((∀ t, t ∈ transactions (mk_Account (float_of_Z 450) [salary; gift; food; rent]) →
           format_MM_YYYY (date t) ≠ "03-2024"%string) →
     txs = []).
Proof.
  apply (by_month_selects "03-2024"
           (mk_Account (float_of_Z 450) [salary; gift; food; rent])).
  intros t Ht.
  repeat (apply elem_of_cons in Ht as [->|Ht]; [simpl; lia|]).
  by apply elem_of_nil in Ht.
Defined.

(** ** [ReportGenerator.monthly] and [print_all_time] *)

Lemma monthly_run (month_year : string) (acc : Account) :
  monthly month_year acc =
  (Return (set_net (fold_left monthly_body
             (filter (λ t, month_year_key (date t) = month_year) (transactions acc))
             Report_new)),
   acc).
Proof. reflexivity. Qed.

Lemma print_all_time_run (acc : Account) :
  print_all_time acc =
  (Return (income_of (transactions acc), expense_of (transactions acc),
           income_of (transactions acc) - expense_of (transactions acc)),
   acc).
Proof. reflexivity. Qed.

(** C3: the scenario.  On a new account, adding the Salary income of 1000,
    the Gift income of 200 and the Food expense of 300, all dated in March
    2024, gives the balance 900, and the monthly report for "03-2024" has
    total income 1200, total expense 300, net 900, income by category
    Gift 200 and Salary 1000, expense by category Food 300. *)
Theorem scenario_march_2024 :
  ∃ acc,
    (add salary;; add gift;; add food) Account_new = (Return tt, acc) ∧
    balance acc = float_of_Z 900 ∧
    monthly "03-2024" acc =
      (Return (mk_Report (float_of_Z 1200) (float_of_Z 300) (float_of_Z 900)
                 (<["Gift"%string := float_of_Z 200]>
                    (<["Salary"%string := float_of_Z 1000]> ∅))
                 (<["Food"%string := float_of_Z 300]> ∅)),
       acc).
Proof.
  exists (mk_Account (float_of_Z 900) [salary; gift; food]).
  split; [reflexivity|]. split; [reflexivity|].
  vm_compute. reflexivity.
Qed.

(** Two expenses of one category in one month are summed under the
    category. *)
Example monthly_same_category :
  monthly "03-2024"
    (mk_Account (float_of_Z (-125))
       [Expense (float_of_Z 50) "Food" (mk_datetime 2024 3 4) EmptyString;
        Expense (float_of_Z 75) "Food" (mk_datetime 2024 3 9) EmptyString]) =
  (Return (mk_Report 0 (float_of_Z 125) (float_of_Z (-125)) ∅
             (<["Food"%string := float_of_Z 125]> ∅)),
   mk_Account (float_of_Z (-125))
     [Expense (float_of_Z 50) "Food" (mk_datetime 2024 3 4) EmptyString;
      Expense (float_of_Z 75) "Food" (mk_datetime 2024 3 9) EmptyString]).
Proof. vm_compute. reflexivity. Qed.


(** C7: for every account and every key that no stored transaction
    matches, [monthly] returns, without raising, the report with the three
    totals zero and both category mappings empty. *)
Theorem monthly_no_match (month_year : string) (acc : Account) :
  (∀ t, t ∈ transactions acc → month_year_key (date t) ≠ month_year) →
  monthly month_year acc = (Return (mk_Report 0 0 0 ∅ ∅), acc).
Proof.
  intros Hno. rewrite monthly_run.
  replace (filter _ (transactions acc)) with (@nil Transaction); [reflexivity|].
  symmetry. eapply selected_none; [apply filter_selected | exact Hno].
Qed.

Lemma monthly_no_match_witness :
  monthly "05-2024" (mk_Account (float_of_Z 450) [salary; gift; food; rent]) =
  (Return (mk_Report 0 0 0 ∅ ∅), mk_Account (float_of_Z 450) [salary; gift; food; rent]).
Proof.
  apply (monthly_no_match "05-2024" (mk_Account (float_of_Z 450) [salary; gift; food; rent])).
  intros t Ht.
  repeat (apply elem_of_cons in Ht as [->|Ht]; [by vm_compute|]).
  by apply elem_of_nil in Ht.
Defined.

(** C8: for every account (any list of stored transactions, any balance)
    and every key, [monthly] and [print_all_time] return a result; neither
    raises, and neither changes the account. *)
Theorem reports_total (month_year : string) (acc : Account) :
  (∃ report, monthly month_year acc = (Return report, acc)) ∧
  (∃ totals, print_all_time acc = (Return totals, acc)).
Proof.
  split; eexists; [apply monthly_run | apply print_all_time_run].
Qed.

(** ** All-time totals and the months *)

(** The totals built by the loop of [monthly] are the float sums, in the
    order of the list it scans, of the amounts of each class, added to the
    totals it starts from. *)
Lemma monthly_body_totals (txs : list Transaction) (report : Report) :
  total_income (fold_left monthly_body txs report) =
    fold_left fadd (amount <$> filter is_Income txs) (total_income report) ∧
  total_expense (fold_left monthly_body txs report) =
    fold_left fadd (amount <$> filter is_Expense txs) (total_expense report).
Proof.
  revert report. induction txs as [|tx txs IH]; intros report; [done|].
  cbn [fold_left]. destruct (IH (monthly_body report tx)) as [-> ->].
  rewrite !filter_cons. unfold monthly_body.
  pose proof (class_tests tx) as Ht.
  destruct (class_of tx); injection Ht as Hi He; rewrite Hi, ?He; done.
Qed.

Lemma month_keys_NoDup (acc : Account) : NoDup (month_keys acc).
Proof. apply NoDup_remove_dups. Qed.

Lemma month_keys_present (acc : Account) (k : string) :
  k ∈ month_keys acc ↔
  ∃ t, t ∈ transactions acc ∧ month_year_key (date t) = k.
Proof.
  unfold month_keys. rewrite elem_of_remove_dups, list_elem_of_fmap.
  split; intros (t & H1 & H2); exists t; done.
Qed.

Lemma Permutation_eq {A} (l l' : list A) : l = l' → l ≡ₚ l'.
Proof. by intros ->. Qed.

Lemma filter_all {A} (P : A → Prop) `{∀ x, Decision (P x)} (l : list A) :
  (∀ x, x ∈ l → P x) → filter P l = l.
Proof.
  induction l as [|x l IH]; intros Hall; [done|].
  rewrite filter_cons_True by (apply Hall; left).
  f_equal. apply IH. intros y Hy. apply Hall. by right.
Qed.

Lemma mjoin_cons {A} (l : list A) (ls : list (list A)) :
  mjoin (l :: ls) = l ++ mjoin ls.
Proof. reflexivity. Qed.

(** An element put in front of the list of one key is one element more in
    the lists of all keys together. *)
Lemma mjoin_cons_at_key {A} (keys : list string) (k0 : string) (x : A)
    (f : string → list A) :
  NoDup keys → k0 ∈ keys →
  mjoin ((λ k, if decide (k0 = k) then x :: f k else f k) <$> keys)
  ≡ₚ x :: mjoin (f <$> keys).
Proof.
  induction 1 as [|k keys Hk Hnd IH]; intros Hin; [by apply elem_of_nil in Hin|].
  rewrite !fmap_cons, !mjoin_cons.
  destruct (decide (k0 = k)) as [->|Hne].
  - simpl. apply Permutation_skip, Permutation_app_head.
    apply Permutation_eq. f_equal. apply list_fmap_ext.
    intros i k' Hk'. rewrite decide_False; [done|].
    intros <-. apply Hk. by eapply list_elem_of_lookup_2.
  - apply elem_of_cons in Hin as [?|Hin]; [done|].
    rewrite (IH Hin). by rewrite Permutation_middle.
Qed.

(** The month filters over a listing without repetition of the keys present
    take every transaction once. *)
Lemma by_month_partition (keys : list string) (txs : list Transaction) :
  NoDup keys →
  (∀ t, t ∈ txs → month_year_key (date t) ∈ keys) →
  mjoin ((λ k, filter (λ t, month_year_key (date t) = k) txs) <$> keys) ≡ₚ txs.
Proof.
  intros Hnd. induction txs as [|tx txs IH]; intros Hkeys.
  - apply Permutation_eq. clear. induction keys as [|k keys IH]; [done|].
    rewrite fmap_cons, mjoin_cons, IH. reflexivity.
  - etrans; [|apply Permutation_skip, IH; intros t Ht; apply Hkeys; by right].
    etrans;
      [|apply (mjoin_cons_at_key keys (month_year_key (date tx)) tx
                 (λ k, filter (λ t, month_year_key (date t) = k) txs));
        [done | apply Hkeys; left]].
    apply Permutation_eq. reflexivity.
Qed.

(** The run of the incomes of March and April. *)
Lemma history_months :
  history (mk_Account (decimal 11 10) [tenth; april_three_tenths; seven_tenths])
    [tenth; april_three_tenths; seven_tenths].
Proof.
  apply (history_add
           (mk_Account (0 + decimal 1 10 + decimal 3 10)
              [tenth; april_three_tenths])
           _ [tenth; april_three_tenths] seven_tenths); [|reflexivity].
  apply (history_add (mk_Account (0 + decimal 1 10) [tenth]) _ [tenth]
           april_three_tenths); [|reflexivity].
  apply (history_add Account_new _ [] tenth); [|reflexivity].
  apply history_new.
Qed.

(** C4, as the specification states it, fails on the code: after incomes
    of 0.1 in March 2024, of 0.3 in April and of 0.7 in March, the all-time
    total income is 1.1, while the total incomes of the two months,
    0.7999999999999999 and 0.3, sum to 1.0999999999999999 in either order;
    likewise for the nets. *)
Lemma months_do_not_sum_to_all_time :
  history (mk_Account (decimal 11 10) [tenth; april_three_tenths; seven_tenths])
    [tenth; april_three_tenths; seven_tenths] ∧
  month_keys (mk_Account (decimal 11 10)
                [tenth; april_three_tenths; seven_tenths])
    = ["04-2024"; "03-2024"]%string ∧
  ∃ march april income expense savings,
    monthly "03-2024"
      (mk_Account (decimal 11 10) [tenth; april_three_tenths; seven_tenths]) =
      (Return march,
       mk_Account (decimal 11 10) [tenth; april_three_tenths; seven_tenths]) ∧
    monthly "04-2024"
      (mk_Account (decimal 11 10) [tenth; april_three_tenths; seven_tenths]) =
      (Return april,
       mk_Account (decimal 11 10) [tenth; april_three_tenths; seven_tenths]) ∧
    print_all_time
      (mk_Account (decimal 11 10) [tenth; april_three_tenths; seven_tenths]) =
      (Return (income, expense, savings),
       mk_Account (decimal 11 10) [tenth; april_three_tenths; seven_tenths]) ∧
    income = S754_finite false 4953959590107546 (-52) ∧
    sum [total_income april; total_income march]
      = S754_finite false 4953959590107545 (-52) ∧
    feqb (sum [total_income april; total_income march]) income = false ∧
    feqb (sum [total_income march; total_income april]) income = false ∧
    feqb (sum [net april; net march]) savings = false ∧
    feqb (sum [net march; net april]) savings = false.
Proof.
  split; [exact history_months|].
  split; [vm_compute; reflexivity|].
  eexists _, _, _, _, _.
  split; [apply monthly_run|]. split; [apply monthly_run|].
  split; [apply print_all_time_run|].
  repeat split; vm_compute; reflexivity.
Qed.

(** C4, amended: for every account, and every listing without repetition
    of the month-year keys present in it, the month filters of the listed
    keys take every stored transaction once; each monthly total is the float
    sum, in the order of insertion, of the amounts of its month and class,
    and each all-time total is that sum over the whole account; each net is
    its total income minus its total expense; and when one key only is
    present, the report of that key has the all-time totals. *)
Theorem months_partition_ledger (acc : Account) (keys : list string) :
  NoDup keys →
  (∀ k, k ∈ keys ↔
        ∃ t, t ∈ transactions acc ∧ month_year_key (date t) = k) →
  ∃ lists reports income expense savings,
    Forall2 (λ k txs, by_month k acc = (Return txs, acc)) keys lists ∧
    Forall2 (λ k report, monthly k acc = (Return report, acc)) keys reports ∧
    mjoin lists ≡ₚ transactions acc ∧
    Forall2 (λ txs report,
               total_income report = income_of txs ∧
               total_expense report = expense_of txs ∧
               net report = total_income report - total_expense report)
      lists reports ∧
    print_all_time acc = (Return (income, expense, savings), acc) ∧
    income = income_of (transactions acc) ∧
    expense = expense_of (transactions acc) ∧
    savings = income - expense ∧
    (∀ k, keys = [k] →
          reports = [mk_Report income expense savings
                       (income_by_cat (default Report_new (head reports)))
                       (expense_by_cat (default Report_new (head reports)))]).
Proof.
  intros Hnd Hkeys.
  set (list_of := λ k, filter (λ t, month_year_key (date t) = k)
                         (transactions acc)).
  set (report_of := λ txs, set_net (fold_left monthly_body txs Report_new)).
  exists (list_of <$> keys), (report_of <$> (list_of <$> keys)).
  eexists _, _, _.
  assert (∀ t, t ∈ transactions acc → month_year_key (date t) ∈ keys) as Hin.
  { intros t Ht. apply Hkeys. by exists t. }
  assert (∀ txs, total_income (report_of txs) = income_of txs ∧
                 total_expense (report_of txs) = expense_of txs) as Htot.
  { intros txs. destruct (monthly_body_totals txs Report_new) as [Hi He].
    unfold report_of. simpl. by rewrite Hi, He. }
  split.
  { apply Forall2_fmap_r, Forall_Forall2_diag, Forall_forall.
    intros k _. apply by_month_run. }
  split.
  { rewrite <- list_fmap_compose.
    apply Forall2_fmap_r, Forall_Forall2_diag, Forall_forall.
    intros k _. apply monthly_run. }
  split; [by apply by_month_partition|].
  split.
  { apply Forall2_fmap_r, Forall_Forall2_diag, Forall_forall.
    intros txs _. destruct (Htot txs) as [Hi He]. by rewrite <- Hi, <- He. }
  split; [apply print_all_time_run|].
  do 3 (split; [reflexivity|]).
  intros k ->. simpl.
  assert (list_of k = transactions acc) as ->.
  { unfold list_of. apply filter_all.
    intros t Ht. specialize (Hin t Ht). by apply list_elem_of_singleton in Hin. }
  destruct (Htot (transactions acc)) as [Hi He].
  rewrite <- Hi, <- He. reflexivity.
Qed.

Lemma months_partition_ledger_witness :
  ∃ lists reports income expense savings,
    Forall2 (λ k txs,
               by_month k (mk_Account (decimal 11 10)
                             [tenth; april_three_tenths; seven_tenths]) =
               (Return txs,
                mk_Account (decimal 11 10)
                  [tenth; april_three_tenths; seven_tenths]))
      ["04-2024"; "03-2024"]%string lists ∧
    Forall2 (λ k report,
               monthly k (mk_Account (decimal 11 10)
                            [tenth; april_three_tenths; seven_tenths]) =
               (Return report,
                mk_Account (decimal 11 10)
                  [tenth; april_three_tenths; seven_tenths]))
      ["04-2024"; "03-2024"]%string reports ∧
    mjoin lists ≡ₚ
      transactions (mk_Account (decimal 11 10)
                      [tenth; april_three_tenths; seven_tenths]) ∧
    Forall2 (λ txs report,
               total_income report = income_of txs ∧
               total_expense report = expense_of txs ∧
               net report = total_income report - total_expense report)
      lists reports ∧
    print_all_time (mk_Account (decimal 11 10)
                      [tenth; april_three_tenths; seven_tenths]) =
      (Return (income, expense, savings),
       mk_Account (decimal 11 10) [tenth; april_three_tenths; seven_tenths]) ∧
    income = income_of (transactions
                          (mk_Account (decimal 11 10)
                             [tenth; april_three_tenths; seven_tenths])) ∧
    expense = expense_of (transactions
                            (mk_Account (decimal 11 10)
                               [tenth; april_three_tenths; seven_tenths])) ∧
    savings = income - expense ∧
    (∀ k, ["04-2024"; "03-2024"]%string = [k] →
          reports = [mk_Report income expense savings
                       (income_by_cat (default Report_new (head reports)))
                       (expense_by_cat (default Report_new (head reports)))]).
Proof.
  apply (months_partition_ledger
           (mk_Account (decimal 11 10) [tenth; april_three_tenths; seven_tenths])
           ["04-2024"; "03-2024"]%string).
  - apply (month_keys_NoDup
             (mk_Account (decimal 11 10)
                [tenth; april_three_tenths; seven_tenths])).
  - apply (month_keys_present
             (mk_Account (decimal 11 10)
                [tenth; april_three_tenths; seven_tenths])).
Defined.

(** * Further properties of the ledger and the reports *)

(** ** Accounts reached by [add] *)

(** X1: in every account reached by successful [add] calls, each stored
    transaction is an Income or an Expense, and its amount is greater than
    zero or is not a number: the test [amount <= 0] of [add] turns away the
    amounts at most zero, and a NaN, which compares false with everything,
    passes it.  No object of the base class is ever stored. *)
Theorem stored_transactions_valid (acc : Account) (txs : list Transaction)
    (tx : Transaction) :
  history acc txs →
  tx ∈ transactions acc →
  (0 < amount tx ∨ amount tx = S754_nan) ∧
  (class_of tx = IncomeCls ∨ class_of tx = ExpenseCls).
Proof.
  intros H Htx. destruct (history_invariant acc txs H) as (E & _ & Hall).
  destruct (Hall tx) as [Hle Hcls]; [by rewrite <- E|].
  split; [by apply not_le_zero|done].
Qed.

Lemma stored_transactions_valid_witness :
  (0 < amount gift ∨ amount gift = S754_nan) ∧
  (class_of gift = IncomeCls ∨ class_of gift = ExpenseCls).
Proof.
  apply (stored_transactions_valid
           (mk_Account (float_of_Z 900) [salary; gift; food]) [salary; gift; food] gift).
  - exact history_scenario.
  - simpl. right. left.
Defined.

(** ** [add] followed by the month filter and the monthly report *)

Lemma add_returns (tx : Transaction) (acc acc' : Account) :
  add tx acc = (Return tt, acc') →
  transactions acc' = transactions acc ++ [tx] ∧
  (class_of tx = IncomeCls ∨ class_of tx = ExpenseCls).
Proof.
  intros Hadd.
  destruct (add_cases tx acc)
    as [[_ E]|[(_ & _ & E)|[(_ & Hc & E)|(_ & Hc & E)]]];
    rewrite E in Hadd; try discriminate; injection Hadd as <-; auto.
Qed.

(** X3: after a successful [add tx], the month filter returns for the key
    of [tx] what it returned before followed by [tx], and for every other
    key what it returned before. *)
Theorem add_then_by_month (tx : Transaction) (acc acc' : Account)
    (month_year : string) :
  add tx acc = (Return tt, acc') →
  ∃ before,
    by_month month_year acc = (Return before, acc) ∧
    by_month month_year acc' =
      (Return (if decide (month_year_key (date tx) = month_year)
               then before ++ [tx] else before), acc').
Proof.
  intros [E _]%add_returns. eexists. split; [apply by_month_run|].
  rewrite by_month_run, E, filter_app, filter_cons, filter_nil.
  destruct (decide (month_year_key (date tx) = month_year));
    by rewrite ?app_nil_r.
Qed.

Lemma add_then_by_month_witness :
  ∃ before,
    by_month "03-2024" (mk_Account (float_of_Z 1200) [salary; gift]) =
      (Return before, mk_Account (float_of_Z 1200) [salary; gift]) ∧
    by_month "03-2024" (mk_Account (float_of_Z 900) [salary; gift; food]) =
      (Return (if decide (month_year_key (date food) = "03-2024"%string)
               then before ++ [food] else before),
       mk_Account (float_of_Z 900) [salary; gift; food]).
Proof.
  apply (add_then_by_month food (mk_Account (float_of_Z 1200) [salary; gift])
           (mk_Account (float_of_Z 900) [salary; gift; food]) "03-2024").
  reflexivity.
Defined.

(** X4: a successful [add] of a transaction dated in one month leaves the
    monthly report of every other month as it was. *)
Theorem add_keeps_other_months (tx : Transaction) (acc acc' : Account)
    (month_year : string) :
  add tx acc = (Return tt, acc') →
  month_year_key (date tx) ≠ month_year →
  ∃ report,
    monthly month_year acc = (Return report, acc) ∧
    monthly month_year acc' = (Return report, acc').
Proof.
  intros [E _]%add_returns Hne. eexists. split; [apply monthly_run|].
  rewrite monthly_run, E, filter_app, filter_cons, filter_nil.
  by rewrite decide_False, app_nil_r.
Qed.

Lemma add_keeps_other_months_witness :
  ∃ report,
    monthly "03-2024" (mk_Account (float_of_Z 900) [salary; gift; food]) =
      (Return report, mk_Account (float_of_Z 900) [salary; gift; food]) ∧
    monthly "03-2024" (mk_Account (float_of_Z 450) [salary; gift; food; rent]) =
      (Return report, mk_Account (float_of_Z 450) [salary; gift; food; rent]).
Proof.
  apply (add_keeps_other_months rent (mk_Account (float_of_Z 900) [salary; gift; food])
           (mk_Account (float_of_Z 450) [salary; gift; food; rent]) "03-2024").
  - reflexivity.
  - by vm_compute.
Defined.

(** X5: a successful [add] of a transaction moves the report of its own
    month by the amount, in the column of its class: the total of the class
    grows by the amount, the entry of its category in the dictionary of the
    class becomes the former value (0 when there was none) plus the amount,
    and the total and the dictionary of the other class stay. *)
Theorem add_moves_own_month (tx : Transaction) (acc acc' : Account) :
  add tx acc = (Return tt, acc') →
  ∃ r r',
    monthly (month_year_key (date tx)) acc = (Return r, acc) ∧
    monthly (month_year_key (date tx)) acc' = (Return r', acc') ∧
    ((class_of tx = IncomeCls ∧
      total_income r' = total_income r + amount tx ∧
      total_expense r' = total_expense r ∧
      income_by_cat r' =
        <[category tx := default 0 (income_by_cat r !! category tx) + amount tx]>
          (income_by_cat r) ∧
      expense_by_cat r' = expense_by_cat r) ∨
     (class_of tx = ExpenseCls ∧
      total_expense r' = total_expense r + amount tx ∧
      total_income r' = total_income r ∧
      expense_by_cat r' =
        <[category tx := default 0 (expense_by_cat r !! category tx) + amount tx]>
          (expense_by_cat r) ∧
      income_by_cat r' = income_by_cat r)).
Proof.
  intros [E Hc]%add_returns. eexists _, _.
  split; [apply monthly_run|]. split; [apply monthly_run|].
  rewrite E, filter_app, filter_cons, filter_nil, decide_True by done.
  rewrite fold_left_app. cbn [fold_left].
  pose proof (class_tests tx) as Ht. unfold monthly_body.
  destruct Hc as [Hc|Hc]; rewrite Hc in Ht; injection Ht as Hi He;
    rewrite Hi, ?He; [left | right]; by repeat split.
Qed.

Lemma add_moves_own_month_witness :
  ∃ r r',
    monthly (month_year_key (date food)) (mk_Account (float_of_Z 1200) [salary; gift]) =
      (Return r, mk_Account (float_of_Z 1200) [salary; gift]) ∧
    monthly (month_year_key (date food)) (mk_Account (float_of_Z 900) [salary; gift; food]) =
      (Return r', mk_Account (float_of_Z 900) [salary; gift; food]) ∧
    ((class_of food = IncomeCls ∧
      total_income r' = total_income r + amount food ∧
      total_expense r' = total_expense r ∧
      income_by_cat r' =
        <[category food := default 0 (income_by_cat r !! category food) + amount food]>
          (income_by_cat r) ∧
      expense_by_cat r' = expense_by_cat r) ∨
     (class_of food = ExpenseCls ∧
      total_expense r' = total_expense r + amount food ∧
      total_income r' = total_income r ∧
      expense_by_cat r' =
        <[category food := default 0 (expense_by_cat r !! category food) + amount food]>
          (expense_by_cat r) ∧
      income_by_cat r' = income_by_cat r)).
Proof.
  apply (add_moves_own_month food (mk_Account (float_of_Z 1200) [salary; gift])
           (mk_Account (float_of_Z 900) [salary; gift; food])).
  reflexivity.
Defined.

(** ** The category dictionaries of the monthly report *)

(** The loop of [monthly] fills each dictionary from the transactions of
    its class, in their order. *)
Lemma monthly_body_dicts (txs : list Transaction) (report : Report) :
  income_by_cat (fold_left monthly_body txs report) =
    fold_left accumulate_entry (entry <$> filter is_Income txs)
      (income_by_cat report) ∧
  expense_by_cat (fold_left monthly_body txs report) =
    fold_left accumulate_entry (entry <$> filter is_Expense txs)
      (expense_by_cat report).
Proof.
  revert report. induction txs as [|tx txs IH]; intros report; [done|].
  cbn [fold_left]. destruct (IH (monthly_body report tx)) as [-> ->].
  rewrite !filter_cons. unfold monthly_body.
  pose proof (class_tests tx) as Ht.
  destruct (class_of tx); injection Ht as Hi He; rewrite Hi, ?He; done.
Qed.

Lemma entry_of_category (c : string) (txs : list Transaction) :
  snd <$> filter (λ e, e.1 = c) (entry <$> txs) = amount <$> of_category c txs.
Proof.
  unfold of_category. induction txs as [|tx txs IH]; [done|].
  rewrite fmap_cons, !filter_cons. cbn [entry fst].
  destruct (decide (category tx = c)); [rewrite !fmap_cons|]; by rewrite IH.
Qed.

(** The value that a run of updates leaves at a key: the amounts filed
    under the key, added in their order to what the key held (0 when it
    held nothing). *)
Lemma accumulate_lookup (es : list (string * float64)) (d : gmap string float64)
    (c : string) :
  fold_left accumulate_entry es d !! c =
    match filter (λ e, e.1 = c) es with
    | [] => d !! c
    | sel => Some (fold_left fadd (snd <$> sel) (default 0 (d !! c)))
    end.
Proof.
  revert d. induction es as [|[k x] es IH]; intros d; [done|].
  cbn [fold_left]. rewrite IH, filter_cons. cbn [fst].
  unfold accumulate_entry, accumulate. cbn [fst snd].
  destruct (decide (k = c)) as [->|Hne].
  - rewrite lookup_insert_eq. by destruct (filter _ es).
  - by rewrite lookup_insert_ne.
Qed.

(** X6: in the report of a month, the income dictionary has an entry for a
    category exactly when the month has an Income of that category, and the
    entry is the sum of the amounts of the Incomes of the month in that
    category, added from left to right in the order of the ledger; likewise
    for the expense dictionary and the Expenses. *)
Theorem monthly_category_sums (month_year : string) (acc : Account) (c : string) :
  ∃ report txs,
    monthly month_year acc = (Return report, acc) ∧
    by_month month_year acc = (Return txs, acc) ∧
    (of_category c (filter is_Income txs) = [] →
     income_by_cat report !! c = None) ∧
    (of_category c (filter is_Income txs) ≠ [] →
     ∃ v, income_by_cat report !! c = Some v ∧
          v = sum (amount <$> of_category c (filter is_Income txs))) ∧
    (of_category c (filter is_Expense txs) = [] →
     expense_by_cat report !! c = None) ∧
    (of_category c (filter is_Expense txs) ≠ [] →
     ∃ v, expense_by_cat report !! c = Some v ∧
          v = sum (amount <$> of_category c (filter is_Expense txs))).
Proof.
  eexists _, _. split; [apply monthly_run|]. split; [apply by_month_run|].
  set (txs := filter _ (transactions acc)).
  destruct (monthly_body_dicts txs Report_new) as [Ei Ee].
  assert (∀ l,
    fold_left accumulate_entry (entry <$> l) ∅ !! c =
      match of_category c l with
      | [] => None
      | sel => Some (sum (amount <$> sel))
      end) as Hl.
  { intros l. rewrite accumulate_lookup, lookup_empty.
    pose proof (entry_of_category c l) as E.
    destruct (filter _ (entry <$> l)) as [|e es] eqn:Hf.
    - symmetry in E. apply fmap_nil_inv in E. by rewrite E.
    - destruct (of_category c l) as [|t ts]; [done|].
      by rewrite <- E. }
  simpl. rewrite Ei, Ee. simpl. rewrite !Hl.
  split; [by intros ->|]. split.
  { intros H. destruct (of_category c (filter is_Income txs)); [done|]. eauto. }
  split; [by intros ->|].
  intros H. destruct (of_category c (filter is_Expense txs)); [done|]. eauto.
Qed.

(** * Dates typed at the prompt *)

Section DateParsingProperties.
Local Open Scope Z_scope.

Lemma digit_in_Some lo hi s v r :
  digit_in lo hi s = Some (v, r) →
  lo <= v <= hi ∧ ∃ c, s = String c r ∧ digit_value c = Some v.
Proof.
  destruct s as [|c s]; [done|]. simpl.
  destruct (digit_value c) as [w|] eqn:E; [simpl|done].
  case_decide; [|done]. intros [= <- <-]. split; [done|]. by exists c.
Qed.

Lemma two_digits_Some lo1 hi1 lo2 hi2 s v r :
  two_digits lo1 hi1 lo2 hi2 s = Some (v, r) →
  ∃ a b c1 c2,
    s = String c1 (String c2 r) ∧
    digit_value c1 = Some a ∧ digit_value c2 = Some b ∧
    lo1 <= a <= hi1 ∧ lo2 <= b <= hi2 ∧ v = 10 * a + b.
Proof.
  unfold two_digits. intros H.
  destruct (digit_in lo1 hi1 s) as [[a r1]|] eqn:E1; [simpl in H|done].
  destruct (digit_in lo2 hi2 r1) as [[b r2]|] eqn:E2; [simpl in H|done].
  injection H as <- <-.
  apply digit_in_Some in E1 as (Ha & c1 & -> & Hc1).
  apply digit_in_Some in E2 as (Hb & c2 & -> & Hc2).
  by exists a, b, c1, c2.
Qed.

Lemma literal_Some c s r : literal c s = Some r → s = String c r.
Proof.
  destruct s as [|c' s]; [done|]. simpl. case_decide; [|done].
  by intros [= <-]; subst.
Qed.

Lemma elem_of_alternatives {A} (alts : list (option A)) (x : A) :
  x ∈ alternatives alts ↔ Some x ∈ alts.
Proof.
  unfold alternatives. rewrite list_elem_of_omap. split.
  - intros (o & Ho & E). simpl in E. by subst.
  - intros H. by exists (Some x).
Qed.
Lemma match_d_elem s v r :
  (v, r) ∈ match_d s →
  1 <= v <= 31 ∧
  ((∃ c, s = String c r) ∨ (∃ c1 c2, s = String c1 (String c2 r))).
Proof.
  unfold match_d. rewrite elem_of_alternatives. rewrite !elem_of_cons, elem_of_nil.
  intros [H|[H|[H|[H|[H|[]]]]]]; symmetry in H.
  1-3: apply two_digits_Some in H as (a & b & c1 & c2 & -> & _ & _ & ? & ? & ->);
       split; [lia|]; right; eauto.
  - apply digit_in_Some in H as (? & c & -> & _). split; [lia|]. left; eauto.
  - destruct (literal " " s) as [r0|] eqn:E; [simpl in H|done].
    apply literal_Some in E as ->.
    apply digit_in_Some in H as (? & c & -> & _). split; [lia|]. right; eauto.
Qed.

Lemma match_m_elem s v r :
  (v, r) ∈ match_m s →
  1 <= v <= 12 ∧
  ((∃ c, s = String c r) ∨
   (∃ a b c1 c2, s = String c1 (String c2 r) ∧ digit_value c1 = Some a ∧
                 digit_value c2 = Some b ∧ v = 10 * a + b)).
Proof.
  unfold match_m. rewrite elem_of_alternatives, !elem_of_cons, elem_of_nil.
  intros [H|[H|[H|[]]]]; symmetry in H.
  1-2: apply two_digits_Some in H as (a & b & c1 & c2 & -> & ? & ? & ? & ? & ->);
       split; [lia|]; right; by exists a, b, c1, c2.
  apply digit_in_Some in H as (? & c & -> & _). split; [lia|]. left; eauto.
Qed.

Lemma match_Y_elem s v r :
  (v, r) ∈ match_Y s →
  ∃ a b c d c1 c2 c3 c4,
    s = String c1 (String c2 (String c3 (String c4 r))) ∧
    digit_value c1 = Some a ∧ digit_value c2 = Some b ∧
    digit_value c3 = Some c ∧ digit_value c4 = Some d ∧
    0 <= a <= 9 ∧ 0 <= b <= 9 ∧ 0 <= c <= 9 ∧ 0 <= d <= 9 ∧
    v = 1000 * a + 100 * b + 10 * c + d.
Proof.
  unfold match_Y. rewrite elem_of_alternatives, list_elem_of_singleton.
  intros H. symmetry in H.
  destruct (two_digits 0 9 0 9 s) as [[x r1]|] eqn:E1; [simpl in H|done].
  destruct (two_digits 0 9 0 9 r1) as [[y r2]|] eqn:E2; [simpl in H|done].
  injection H as <- <-.
  apply two_digits_Some in E1 as (a & b & c1 & c2 & -> & ? & ? & ? & ? & ->).
  apply two_digits_Some in E2 as (c & d & c3 & c4 & -> & ? & ? & ? & ? & ->).
  exists a, b, c, d, c1, c2, c3, c4. repeat split; try done; lia.
Qed.


Lemma format_match_Some s d m y r :
  format_match s = Some (d, m, y, r) →
  ∃ r1 r2 r3 r4,
    (d, r1) ∈ match_d s ∧ r1 = String "-" r2 ∧
    (m, r3) ∈ match_m r2 ∧ r3 = String "-" r4 ∧
    (y, r) ∈ match_Y r4.
Proof.
  unfold format_match. intros H%head_Some_elem_of.
  apply list_elem_of_bind in H as ([d' r1] & H & Hd).
  apply list_elem_of_bind in H as (r2 & H & Hl1).
  apply list_elem_of_bind in H as ([m' r3] & H & Hm).
  apply list_elem_of_bind in H as (r4 & H & Hl2).
  apply list_elem_of_bind in H as ([y' r5] & H & Hy).
  apply list_elem_of_singleton in H as [= <- <- <- <-].
  unfold match_literal in Hl1, Hl2.
  rewrite elem_of_alternatives, list_elem_of_singleton in Hl1, Hl2.
  symmetry in Hl1, Hl2. apply literal_Some in Hl1, Hl2.
  by exists r1, r2, r3, r4.
Qed.

Lemma strptime_Some s dt :
  strptime s = Some dt →
  ∃ rest, format_match s = Some (day dt, month dt, year dt, EmptyString) ∧
   rest = EmptyString ∧ 1 <= year dt ∧ day dt <= days_in_month (year dt) (month dt).
Proof.
  unfold strptime. destruct (format_match s) as [[[[d m] y] rest]|]; [simpl|done].
  case_decide as H; [|done]. destruct H as (-> & ? & ?). intros [= <-]. simpl.
  by exists EmptyString.
Qed.

Lemma days_in_month_bounds y m : 28 <= days_in_month y m <= 31.
Proof. unfold days_in_month. repeat case_decide; try destruct (is_leap y); lia. Qed.

Lemma strptime_calendar s dt : strptime s = Some dt → calendar_date dt.
Proof.
  unfold calendar_date.
  intros (_ & H & _ & Hy & Hd)%strptime_Some.
  apply format_match_Some in H as (r1 & r2 & r3 & r4 & Hdd & _ & Hm & _ & Hyy).
  apply match_d_elem in Hdd as [? _]. apply match_m_elem in Hm as [? _].
  apply match_Y_elem in Hyy as (a & b & c & d & _ & _ & _ & _ & _ & _ & _ & _ & _ & ? & ? & ? & ? & E).
  lia.
Qed.

Lemma digit_value_range c v : digit_value c = Some v → 0 <= v <= 9.
Proof. unfold digit_value. case_decide; [|done]. intros [= <-]. lia. Qed.

Lemma digit_value_digit n : digit_value (digit n) = Some (n mod 10).
Proof.
  unfold digit_value, digit.
  pose proof (Z.mod_pos_bound n 10 eq_refl).
  rewrite N_ascii_embedding by lia. rewrite Z2N.id by lia.
  rewrite decide_True by lia. f_equal. lia.
Qed.

Lemma digit_of_value c v n : digit_value c = Some v → n mod 10 = v → digit n = c.
Proof.
  unfold digit_value, digit. case_decide as Hc; [|done]. intros [= <-] ->.
  replace (48 + (Z.of_N (N_of_ascii c) - 48)) with (Z.of_N (N_of_ascii c)) by lia.
  by rewrite N2Z.id, ascii_N_embedding.
Qed.

Lemma two_digits_digits lo1 hi1 lo2 hi2 p q r :
  lo1 <= p mod 10 <= hi1 → lo2 <= q mod 10 <= hi2 →
  two_digits lo1 hi1 lo2 hi2 (String (digit p) (String (digit q) r)) =
  Some (10 * (p mod 10) + q mod 10, r).
Proof.
  intros Hp Hq. unfold two_digits. simpl.
  rewrite !digit_value_digit. simpl. rewrite decide_True by done. simpl.
  rewrite !digit_value_digit. simpl. by rewrite decide_True by done.
Qed.

Lemma append_String c s r : String c s +:+ r = String c (s +:+ r).
Proof. reflexivity. Qed.

Lemma append_empty r : EmptyString +:+ r = r.
Proof. reflexivity. Qed.

Lemma match_Y_strf y rest :
  0 <= y <= 9999 →
  match_Y (String (digit (y / 1000)) (String (digit (y / 100))
            (String (digit (y / 10)) (String (digit y) rest)))) = [(y, rest)].
Proof.
  intros Hy. unfold match_Y.
  pose proof (Z.mod_pos_bound (y / 1000) 10 eq_refl).
  pose proof (Z.mod_pos_bound (y / 100) 10 eq_refl).
  pose proof (Z.mod_pos_bound (y / 10) 10 eq_refl).
  pose proof (Z.mod_pos_bound y 10 eq_refl).
  rewrite two_digits_digits by lia. cbn [mbind option_bind].
  rewrite two_digits_digits by lia. cbn [mbind option_bind].
  unfold alternatives. cbn [omap list_omap id]. do 2 f_equal.
  Z.div_mod_to_equations. lia.
Qed.

Lemma match_d_strf rest :
  Forall (λ d, ∃ tl, match_d (strf_m d +:+ rest) = (d, rest) :: tl) (seqZ 1 31).
Proof. repeat (constructor; [by eexists|]). constructor. Qed.

Lemma match_m_strf rest :
  Forall (λ m, ∃ tl, match_m (strf_m m +:+ rest) = (m, rest) :: tl) (seqZ 1 12).
Proof. repeat (constructor; [by eexists|]). constructor. Qed.

Lemma match_literal_same c r : match_literal c (String c r) = [r].
Proof.
  unfold match_literal, alternatives, literal.
  by rewrite decide_True by done.
Qed.

Lemma bind_singleton {A B} (f : A → list B) (x : A) : [x] ≫= f = f x.
Proof. rewrite bind_cons. csimpl. apply app_nil_r. Qed.

Lemma head_bind_cons {A B} (f : A → list B) (x : A) (l : list A) (y : B) (ys : list B) :
  f x = y :: ys → head ((x :: l) ≫= f) = Some y.
Proof. intros E. by rewrite bind_cons, E. Qed.

Lemma strptime_date_text dt :
  calendar_date dt → strptime (date_text dt) = Some dt.
Proof.
  destruct dt as [y m d]. unfold calendar_date. simpl. intros (Hy & Hm & Hd).
  pose proof (days_in_month_bounds y m).
  unfold strptime, date_text. simpl year; simpl month; simpl day.
  assert (format_match (strf_m d +:+ "-" +:+ strf_m m +:+ "-" +:+ four_digits y)
          = Some (d, m, y, EmptyString)) as ->.
  { unfold format_match.
    pose proof (match_d_strf ("-" +:+ strf_m m +:+ "-" +:+ four_digits y)) as Fd.
    rewrite Forall_forall in Fd.
    destruct (Fd d) as [tl1 ->]; [apply elem_of_seqZ; lia|].
    pose proof (match_m_strf ("-" +:+ four_digits y)) as Fm.
    rewrite Forall_forall in Fm.
    destruct (Fm m) as [tl2 Em]; [apply elem_of_seqZ; lia|].
    eapply head_bind_cons.
    rewrite append_String, append_empty, match_literal_same.
    rewrite bind_singleton, Em.
    rewrite bind_cons.
    rewrite append_String, append_empty, match_literal_same.
    rewrite bind_singleton.
    unfold four_digits, strf_m. rewrite match_Y_strf by lia.
    rewrite bind_singleton. reflexivity. }
  simpl. rewrite decide_True; [done|]. repeat split; lia.
Qed.

Lemma strptime_month_year_key s dt :
  strptime s = Some dt →
  String.length s = 10%nat →
  1000 <= year dt →
  month_year_key dt = substring 3 7 s.
Proof.
  intros (_ & H & _ & _ & _)%strptime_Some Hlen Hyear.
  rewrite month_year_key_four_digits by done.
  apply format_match_Some in H as (r1 & r2 & r3 & r4 & Hd & -> & Hm & -> & Hy).
  apply match_Y_elem in Hy
    as (a & b & c & d & c1 & c2 & c3 & c4 & -> & Ha & Hb & Hc & Hd' & ? & ? & ? & ? & Ey).
  apply match_m_elem in Hm as [_ [[cm ->]|(ma & mb & m1 & m2 & -> & Hma & Hmb & Em)]];
    apply match_d_elem in Hd as [_ [[cd ->]|(d1 & d2 & ->)]];
    try discriminate Hlen.
  pose proof (digit_value_range _ _ Hma). pose proof (digit_value_range _ _ Hmb).
  unfold format_MM_YYYY, four_digits, strf_m. rewrite Em, Ey. simpl.
  rewrite (digit_of_value m1 ma), (digit_of_value m2 mb),
    (digit_of_value c1 a), (digit_of_value c2 b),
    (digit_of_value c3 c), (digit_of_value c4 d); try done;
    Z.div_mod_to_equations; lia.
Qed.

(** X9: [parse_date] returns a date of the calendar (year 1 to 9999, month
    1 to 12, a day that the month has in that year) or raises the
    [ValueError] "Invalid date format. Use DD-MM-YYYY."; it has no other
    outcome. *)
Theorem parse_date_calendar (date_str : string) :
  (∃ d, parse_date date_str = Return d ∧ calendar_date d) ∨
  parse_date date_str = Raise (ValueError "Invalid date format. Use DD-MM-YYYY.").
Proof.
  unfold parse_date. destruct (strptime date_str) as [d|] eqn:E; [left|by right].
  exists d. split; [done|]. by eapply strptime_calendar.
Qed.

(** X10: every date of the calendar, written as DD-MM-YYYY with leading
    zeros, is parsed back to itself. *)
Theorem parse_date_of_text (d : datetime) :
  calendar_date d → parse_date (date_text d) = Return d.
Proof. intros H. unfold parse_date. by rewrite strptime_date_text. Qed.

Lemma parse_date_of_text_witness :
  parse_date (date_text (mk_datetime 2024 2 29)) = Return (mk_datetime 2024 2 29).
Proof.
  apply (parse_date_of_text (mk_datetime 2024 2 29)).
  unfold calendar_date. simpl. vm_compute. intuition discriminate.
Defined.

(** X11: when [parse_date] accepts a text of ten ASCII characters, with a
    year from 1000 on, the month-year key of the date is the text without
    its first three characters: a transaction entered under DD-MM-YYYY is
    reported under MM-YYYY.  (From the year 1000 on the four digits of the
    year involve no padding.  The restriction to ASCII matters for Python
    texts at large: the class [\d] of the library also holds decimal digits
    of other scripts, which the key, written in ASCII digits, does not
    repeat.) *)
Theorem parse_date_month_year_key (date_str : string) (d : datetime) :
  isascii date_str = true →
  parse_date date_str = Return d →
  String.length date_str = 10%nat →
  1000 <= year d →
  month_year_key d = substring 3 7 date_str.
Proof.
  unfold parse_date. destruct (strptime date_str) as [d'|] eqn:E; [|done].
  intros _ [= ->] Hlen Hy. by apply strptime_month_year_key.
Qed.

Lemma parse_date_month_year_key_witness :
  month_year_key (mk_datetime 2024 3 20) = substring 3 7 "20-03-2024".
Proof.
  apply (parse_date_month_year_key "20-03-2024" (mk_datetime 2024 3 20)).
  - reflexivity.
  - reflexivity.
  - reflexivity.
  - simpl. lia.
Defined.

Lemma digit_not_dash (n : Z) : digit n ≠ "-"%char.
Proof.
  unfold digit. intros H. apply (f_equal N_of_ascii) in H.
  pose proof (Z.mod_pos_bound n 10 eq_refl).
  rewrite N_ascii_embedding in H by lia. simpl in H. lia.
Qed.

Lemma isdigit_char_digit (n : Z) : isdigit_char (digit n) = true.
Proof.
  unfold isdigit_char, digit.
  pose proof (Z.mod_pos_bound n 10 eq_refl).
  rewrite N_ascii_embedding by lia.
  replace (48 <=? Z.to_N (48 + n mod 10))%N with true
    by (symmetry; apply N.leb_le; lia).
  replace (Z.to_N (48 + n mod 10) <=? 57)%N with true
    by (symmetry; apply N.leb_le; lia).
  reflexivity.
Qed.

Lemma replace_dash_digit (n : Z) (r : string) :
  replace_dash (String (digit n) r) = String (digit n) (replace_dash r).
Proof. simpl. by rewrite decide_False by apply digit_not_dash. Qed.

Lemma format_MM_YYYY_chars (d : datetime) :
  format_MM_YYYY d =
  String (digit (month d / 10)) (String (digit (month d)) (String "-"
    (String (digit (year d / 1000)) (String (digit (year d / 100))
      (String (digit (year d / 10)) (String (digit (year d)) EmptyString)))))).
Proof. reflexivity. Qed.

(** X12: the key of every date with a year from 1000 on passes the test
    that option 3 of [main] applies to the month-year typed by the user:
    every month that holds such a transaction can be queried. *)
Theorem month_year_key_accepted (d : datetime) :
  valid_date d → 1000 <= year d →
  invalid_month_year (month_year_key d) = false.
Proof.
  intros _ Hy. unfold invalid_month_year.
  rewrite month_year_key_four_digits, format_MM_YYYY_chars by done.
  rewrite !replace_dash_digit.
  change (replace_dash (String "-" ?r)) with (replace_dash r).
  rewrite !replace_dash_digit.
  cbn [String.length Nat.eqb negb orb String.get replace_dash].
  rewrite bool_decide_eq_true_2 by done.
  cbn [negb orb isdigit list_ascii_of_string forallb].
  by rewrite !isdigit_char_digit.
Qed.

Lemma month_year_key_accepted_witness :
  invalid_month_year (month_year_key (mk_datetime 2024 3 20)) = false.
Proof.
  apply (month_year_key_accepted (mk_datetime 2024 3 20)).
  - unfold valid_date. simpl. lia.
  - simpl. lia.
Defined.

Lemma month_year_key_inj_witness :
  month_year_key (mk_datetime 2024 3 1) = month_year_key (mk_datetime 2024 3 20) ↔
  month (mk_datetime 2024 3 1) = month (mk_datetime 2024 3 20) ∧
  year (mk_datetime 2024 3 1) = year (mk_datetime 2024 3 20).
Proof.
  apply (month_year_key_inj (mk_datetime 2024 3 1) (mk_datetime 2024 3 20)).
  - unfold valid_date. simpl. lia.
  - unfold valid_date. simpl. lia.
Defined.

End DateParsingProperties.

(** * The console *)

Section ConsoleProperties.

Variable float : string → option float64.
Variable format_2f : float64 → string.

(** ** Rules for [judged] *)

Lemma judged_ret {A} (fuel : nat) (a : A) (Q : A → Prop) (E : exn → Prop) :
  Q a → judged fuel 0 (mret a) Q E.
Proof. intros HQ w Hw. simpl. by rewrite Nat.add_0_r. Qed.

Lemma judged_bind {A B} (fuel fuel' k1 k2 : nat) (m : io A) (g : A → io B)
    (Q1 : A → Prop) (Q2 : B → Prop) (E : exn → Prop) :
  judged fuel k1 m Q1 E →
  (∀ a, Q1 a → judged fuel' k2 (g a) Q2 E) →
  (fuel ≤ fuel' + k1)%nat →
  judged fuel (k1 + k2) (m ≫= g) Q2 E.
Proof.
  intros Hm Hg Hfuel w Hw. specialize (Hm w Hw).
  unfold mbind, io_bind. destruct (m w) as [[a|[e| |]] w1].
  - destruct Hm as (Hs & Hlen & HQ). specialize (Hg a HQ w1 Hs).
    destruct (g a w1) as [[b|[e| |]] w2].
    + destruct Hg as (? & ? & ?). repeat split; try done. lia.
    + destruct Hg as (? & ? & ?). repeat split; try done. lia.
    + done.
    + destruct Hg as (? & ?). split; [done|]. lia.
  - done.
  - done.
  - done.
Qed.

Lemma judged_weaken {A} (fuel k k' : nat) (m : io A) (Q Q' : A → Prop)
    (E E' : exn → Prop) :
  judged fuel k m Q E →
  (k' ≤ k)%nat → (∀ a, Q a → Q' a) → (∀ e, E e → E' e) →
  judged fuel k' m Q' E'.
Proof.
  intros Hm Hk HQ HE w Hw. specialize (Hm w Hw).
  destruct (m w) as [[a|[e| |]] w1]; try done.
  - destruct Hm as (? & ? & ?). repeat split; auto. lia.
  - destruct Hm as (? & ? & ?). repeat split; auto.
Qed.

(** Sequencing without a count of lines. *)
Lemma judged_seq {A B} (fuel : nat) (m : io A) (g : A → io B)
    (Q1 : A → Prop) (Q2 : B → Prop) (E : exn → Prop) :
  judged fuel 0 m Q1 E →
  (∀ a, Q1 a → judged fuel 0 (g a) Q2 E) →
  judged fuel 0 (m ≫= g) Q2 E.
Proof.
  intros Hm Hg. apply (judged_bind fuel fuel 0 0 m g Q1 Q2 E); [done..|lia].
Qed.

Lemma judged_print (fuel : nat) (s : string) (E : exn → Prop) :
  judged fuel 0 (print s) (λ _, True) E.
Proof. intros w Hw. simpl. by rewrite Nat.add_0_r. Qed.

Lemma judged_input_prompt (fuel : nat) (prompt : string) (E : exn → Prop) :
  judged fuel 1 (input_prompt prompt) (λ _, True) E.
Proof.
  intros w Hw. unfold input_prompt, input, mbind, io_bind.
  destruct (stdin w) as [|line lines] eqn:Hin; simpl; [done|].
  repeat split; [done|lia].
Qed.

Lemma judged_out_of_fuel {A} (Q : A → Prop) (E : exn → Prop) :
  judged 0 0 (@out_of_fuel A) Q E.
Proof. intros w Hw. simpl. split; [done|lia]. Qed.

(** A method that returns and leaves the account as it is. *)
Lemma judged_query {A} (fuel : nat) (m : action A) (Q : A → Prop)
    (E : exn → Prop) :
  (∀ acc, ∃ a, m acc = (Return a, acc) ∧ Q a) →
  judged fuel 0 (on_account m) Q E.
Proof.
  intros Hm w Hw. unfold on_account.
  destruct (Hm (ledger w)) as (a & -> & HQ). simpl.
  by rewrite Nat.add_0_r.
Qed.

Lemma judged_parse_date (fuel : nat) (date_str : string) :
  judged fuel 0 (of_outcome (parse_date date_str)) calendar_date
    (λ e, ∃ msg, e = ValueError msg).
Proof.
  intros w Hw. unfold of_outcome, parse_date.
  destruct (strptime date_str) as [d|] eqn:E.
  - split; [done|]. split; [lia|]. by eapply strptime_calendar.
  - split; [done|]. split; [lia|]. by eexists.
Qed.

Lemma judged_add (fuel : nat) (tx : Transaction) :
  class_of tx ≠ TransactionCls →
  0 < amount tx →
  calendar_date (date tx) →
  judged fuel 0 (on_account (add tx)) (λ _, True)
    (λ e, ∃ msg, e = ValueError msg).
Proof.
  intros Hc Hpos Hd w (txs & Hh & Hdates). unfold on_account.
  destruct (add tx (ledger w)) as [[[]|e] acc'] eqn:Hadd; simpl.
  - rewrite Nat.add_0_r. repeat split; [|done].
    exists (txs ++ [tx]). split; [by eapply history_add|].
    intros t [Ht|Ht%list_elem_of_singleton]%elem_of_app; [by apply Hdates|].
    by subst.
  - destruct (add_cases tx (ledger w))
      as [[_ E]|[(_ & Hc' & _)|[(_ & _ & E)|(_ & _ & E)]]];
      try congruence.
    rewrite E in Hadd. injection Hadd as <- <-.
    repeat split; [by exists txs|done|by eexists].
Qed.

Lemma judged_try (fuel : nat) (body : io unit) (handler : string → io unit)
    (E : exn → Prop) :
  judged fuel 0 body (λ _, True) (λ e, ∃ msg, e = ValueError msg) →
  (∀ msg, judged fuel 0 (handler msg) (λ _, True) E) →
  judged fuel 0 (try_except_ValueError body handler) (λ _, True) E.
Proof.
  intros Hb Hh w Hw. specialize (Hb w Hw). unfold try_except_ValueError.
  destruct (body w) as [[[]|[e| |]] w1]; try done.
  destruct Hb as (Hs & Hlen & msg & ->).
  specialize (Hh msg w1 Hs).
  destruct (handler msg w1) as [[[]|[e| |]] w2]; try done.
  - destruct Hh as (? & ? & ?). repeat split; try done. lia.
  - destruct Hh as (? & ? & ?). repeat split; try done. lia.
  - destruct Hh as (? & ?). split; [done|lia].
Qed.

Lemma judged_after_print {A} (fuel k : nat) (s : string) (m : io A)
    (Q : A → Prop) (E : exn → Prop) :
  judged fuel k m Q E → judged fuel k (print s;; m) Q E.
Proof.
  intros Hm.
  apply (judged_bind fuel fuel 0 k (print s) (λ _, m) (λ _, True) Q E);
    [apply judged_print|done|lia].
Qed.

Lemma judged_for_each {A} (fuel : nat) (xs : list A) (body : A → io unit)
    (E : exn → Prop) :
  (∀ x, judged fuel 0 (body x) (λ _, True) E) →
  judged fuel 0 (for_each xs body) (λ _, True) E.
Proof.
  intros Hbody. induction xs as [|x xs IH]; simpl.
  - by apply judged_ret.
  - eapply judged_seq; [apply Hbody|]. by intros _ _.
Qed.

Lemma judged_print_categories (fuel : nat) (d : gmap string float64)
    (E : exn → Prop) :
  judged fuel 0 (print_categories format_2f d) (λ _, True) E.
Proof.
  unfold print_categories. case_decide; [apply judged_print|].
  apply judged_for_each. intros [cat amt]. apply judged_print.
Qed.

Lemma judged_show_menu (fuel : nat) (balance : float64) (E : exn → Prop) :
  judged fuel 1 (show_menu format_2f balance) (λ _, True) E.
Proof.
  unfold show_menu. do 10 apply judged_after_print.
  apply judged_input_prompt.
Qed.

Lemma judged_print_monthly (fuel : nat) (month_year : string) (E : exn → Prop) :
  judged fuel 0 (print_monthly format_2f month_year) (λ _, True) E.
Proof.
  unfold print_monthly.
  eapply judged_seq.
  { apply (judged_query fuel (monthly month_year) (λ _, True)).
    intros acc. eexists. split; [apply monthly_run|done]. }
  intros r _. do 5 apply judged_after_print.
  eapply judged_seq; [apply judged_print_categories|]. intros _ _.
  apply judged_after_print.
  eapply judged_seq; [apply judged_print_categories|]. intros _ _.
  apply judged_after_print.
  eapply judged_seq.
  { apply (judged_query fuel get_balance (λ _, True)).
    intros acc. by eexists. }
  intros b _. apply judged_print.
Qed.

Lemma judged_print_all_time_lines (fuel : nat) (E : exn → Prop) :
  judged fuel 0 (print_all_time_lines format_2f) (λ _, True) E.
Proof.
  unfold print_all_time_lines.
  eapply judged_seq.
  { apply (judged_query fuel print_all_time (λ _, True)).
    intros acc. eexists. split; [apply print_all_time_run|done]. }
  intros [[income expense] savings] _. do 4 apply judged_after_print.
  apply judged_print.
Qed.

Lemma judged_read_amount (fuel : nat) (E : exn → Prop) :
  judged fuel 1 (read_amount float fuel) (λ amt, 0 < amt) E.
Proof.
  induction fuel as [|fuel IH]; simpl.
  - eapply judged_weaken.
    + apply (judged_bind 0 0 0 1 out_of_fuel (λ a : float64, mret a)
               (λ _, False) (λ amt, 0 < amt) E);
        [apply judged_out_of_fuel|done|lia].
    + done.
    + done.
    + done.
  - apply (judged_bind (S fuel) fuel 1 0 (input_prompt "Amount: ") _
             (λ _, True) (λ amt, 0 < amt) E);
      [apply judged_input_prompt| |lia].
    intros text _. destruct (float text) as [amt|].
    + destruct (fltb 0 amt) eqn:Hlt; simpl.
      * by apply judged_ret.
      * apply judged_after_print.
        eapply judged_weaken; [apply IH|lia|done..].
    + apply judged_after_print.
      eapply judged_weaken; [apply IH|lia|done..].
Qed.

Lemma judged_then {A B} (fuel k : nat) (m : io A) (g : A → io B)
    (Q1 : A → Prop) (Q2 : B → Prop) (E : exn → Prop) :
  judged fuel k m Q1 E →
  (∀ a, Q1 a → judged fuel 0 (g a) Q2 E) →
  judged fuel 0 (m ≫= g) Q2 E.
Proof.
  intros Hm Hg. eapply judged_seq; [|exact Hg].
  eapply judged_weaken; [exact Hm|lia|done..].
Qed.

Lemma judged_add_transaction (fuel : nat)
    (make : float64 → string → datetime → string → Transaction) (E : exn → Prop) :
  (∀ a c d e, class_of (make a c d e) ≠ TransactionCls ∧
              amount (make a c d e) = a ∧ date (make a c d e) = d) →
  judged fuel 0 (add_transaction float make fuel) (λ _, True) E.
Proof.
  intros Hmake. unfold add_transaction.
  eapply judged_then; [apply judged_read_amount|]. intros amt Hamt.
  eapply judged_then; [apply judged_input_prompt|]. intros category _.
  eapply judged_then; [apply judged_input_prompt|]. intros date_str _.
  eapply judged_then; [apply judged_input_prompt|]. intros desc _.
  apply judged_try; [|intros msg; apply judged_print].
  eapply judged_seq; [apply judged_parse_date|]. intros d Hd.
  destruct (Hmake amt category d desc) as (Hc & Hamount & Hdate).
  eapply judged_seq;
    [apply judged_add; [done|by rewrite Hamount|by rewrite Hdate]|].
  intros _ _. apply judged_print.
Qed.

Lemma judged_main_loop (fuel : nat) :
  judged fuel 0 (main_loop float format_2f fuel) (λ _, True) (λ _, False).
Proof.
  induction fuel as [|fuel IH]; simpl.
  - apply judged_out_of_fuel.
  - eapply judged_seq.
    { apply (judged_query (S fuel) get_balance (λ _, True)).
      intros acc. by eexists. }
    intros balance _.
    eapply judged_weaken;
      [apply (judged_bind (S fuel) fuel 1 0 (show_menu format_2f balance) _
                (λ _, True) (λ _, True) (λ _, False));
         [apply judged_show_menu| |lia]
      |lia|done..].
    intros choice _. repeat case_decide.
    + apply judged_after_print.
      eapply judged_seq; [by apply judged_add_transaction|]. by intros _ _.
    + apply judged_after_print.
      eapply judged_seq; [by apply judged_add_transaction|]. by intros _ _.
    + eapply judged_then; [apply judged_input_prompt|]. intros my _.
      eapply judged_seq; [|by intros _ _].
      destruct (invalid_month_year my);
        [apply judged_print | apply judged_print_monthly].
    + eapply judged_seq; [apply judged_print_all_time_lines|]. by intros _ _.
    + apply judged_print.
    + by apply judged_after_print.
Qed.

(** The account of [main] is sound when [main] ends, however it ends; no
    exception of the program leaves it; [EOFError] leaves it only with the
    input used up; it is short of iterations only when it was granted no
    more than there are lines. *)
Lemma main_judged (fuel : nat) (w : world) :
  match main float format_2f fuel w with
  | (Ok _, w') => sound (ledger w')
  | (Stop (Raised _), _) => False
  | (Stop EOFError, w') => sound (ledger w') ∧ stdin w' = []
  | (Stop OutOfFuel, w') => sound (ledger w') ∧ (fuel ≤ length (stdin w))%nat
  end.
Proof.
  unfold main, new_account.
  change (main_loop float format_2f fuel) with
    ((λ _ : unit, main_loop float format_2f fuel) tt).
  assert (judged fuel 0
            (print "Welcome to Personal Finance Tracker!";;
             main_loop float format_2f fuel)
            (λ _, True) (λ _, False)) as H.
  { apply judged_after_print, judged_main_loop. }
  assert (sound Account_new) as Hnew.
  { exists []. split; [constructor|].
    intros tx Htx. by apply elem_of_nil in Htx. }
  specialize (H (mk_world Account_new (stdin w) (stdout w)) Hnew).
  unfold mbind at 1. unfold io_bind at 1. simpl in *.
  match goal with |- match ?run with _ => _ end =>
    destruct run as [[[]|[e| |]] w'] end; tauto.
Qed.

(** ** [read_amount] *)

Lemma read_amount_step (fuel : nat) (w : world) (line : string)
    (lines : list string) :
  stdin w = line :: lines →
  read_amount float (S fuel) w =
  let w1 := mk_world (ledger w) lines (stdout w ++ ["Amount: "]) in
  match float (strip line) with
  | Some amt =>
      if fltb 0 amt then (Ok amt, w1)
      else read_amount float fuel
             (mk_world (ledger w) lines
                (stdout w1 ++ ["Amount must be positive." +:+ newline]))
  | None =>
      read_amount float fuel
        (mk_world (ledger w) lines
           (stdout w1 ++ ["Please enter a valid number." +:+ newline]))
  end.
Proof.
  intros Hin. simpl. unfold input_prompt, input, mbind, io_bind. rewrite Hin.
  simpl. destruct (float (strip line)) as [amt|]; [|done].
  by destruct (fltb 0 amt).
Qed.

(** X13: whatever is typed, an amount that [read_amount] returns is
    positive, and the account is as it was. *)
Theorem read_amount_positive (fuel : nat) (w w' : world) (amt : float64) :
  read_amount float fuel w = (Ok amt, w') →
  0 < amt ∧ ledger w' = ledger w.
Proof.
  revert w. induction fuel as [|fuel IH]; intros w; [done|].
  destruct (stdin w) as [|line lines] eqn:Hin.
  - simpl. unfold input_prompt, input, mbind, io_bind. by rewrite Hin.
  - rewrite (read_amount_step fuel w line lines Hin). simpl.
    destruct (float (strip line)) as [a|].
    + destruct (fltb 0 a) eqn:Hlt.
      * by intros [= -> <-].
      * intros H. by apply IH in H.
    + intros H. by apply IH in H.
Qed.

(** X14: [read_amount] skips the lines that are not numbers or are not
    positive (a NaN among them), with one message each, and returns the
    first positive number typed; the lines after it are left unread and the
    account is as it was. *)
Theorem read_amount_first_valid (fuel : nat) (w : world)
    (skipped : list string) (line : string) (rest : list string)
    (amt : float64) :
  stdin w = skipped ++ line :: rest →
  Forall (λ l, match float (strip l) with
               | Some a => fltb 0 a = false
               | None => True
               end) skipped →
  float (strip line) = Some amt →
  0 < amt →
  (length skipped < fuel)%nat →
  ∃ out,
    read_amount float fuel w =
      (Ok amt, mk_world (ledger w) rest (stdout w ++ out)) ∧
    length out = (2 * length skipped + 1)%nat.
Proof.
  revert fuel w.
  induction skipped as [|l skipped IH]; intros fuel w Hin Hsk Hline Hpos Hfuel;
    (destruct fuel as [|fuel]; [simpl in Hfuel; lia|]).
  - rewrite (read_amount_step fuel w line rest Hin), Hline. simpl.
    rewrite Hpos. by exists ["Amount: "].
  - rewrite (read_amount_step fuel w l (skipped ++ line :: rest) Hin).
    apply Forall_cons in Hsk as [Hl Hsk]. simpl.
    assert (∀ msg,
      ∃ out,
        read_amount float fuel
          (mk_world (ledger w) (skipped ++ line :: rest)
             ((stdout w ++ ["Amount: "]) ++ [msg])) =
          (Ok amt, mk_world (ledger w) rest (stdout w ++ out)) ∧
        length out = (2 * length (l :: skipped) + 1)%nat) as Hrec.
    { intros msg.
      destruct (IH fuel
                  (mk_world (ledger w) (skipped ++ line :: rest)
                     ((stdout w ++ ["Amount: "]) ++ [msg])))
        as (out & -> & Hout); [done..|simpl in Hfuel; lia|].
      exists (["Amount: "; msg] ++ out). simpl.
      split; [|rewrite Hout; lia].
      by rewrite <- !app_assoc. }
    destruct (float (strip l)) as [a|]; [|apply Hrec].
    rewrite Hl. apply Hrec.
Qed.

(** ** Options 1 and 2 of the menu *)

Lemma input_prompt_step (prompt : string) (w : world) (line : string)
    (lines : list string) :
  stdin w = line :: lines →
  input_prompt prompt w =
  (Ok (strip line), mk_world (ledger w) lines (stdout w ++ [prompt])).
Proof. intros Hin. unfold input_prompt, input, mbind, io_bind. by rewrite Hin. Qed.

Lemma add_transaction_fields
    (make : float64 → string → datetime → string → Transaction) (fuel : nat)
    (w : world) (a c d e : string) (rest : list string) (amt : float64) :
  stdin w = a :: c :: d :: e :: rest →
  float (strip a) = Some amt →
  0 < amt →
  add_transaction float make (S fuel) w =
  try_except_ValueError
    (date ← of_outcome (parse_date (strip d));
     on_account (add (make amt (strip c) date (strip e)));;
     print "Transaction added successfully!")
    (λ msg, print ("Error: " +:+ msg))
    (mk_world (ledger w) rest
       (stdout w ++ ["Amount: "; "Category: "; "Date (DD-MM-YYYY): ";
                     "Description (optional): "])).
Proof.
  intros Hin Ha Hpos. unfold add_transaction.
  unfold mbind at 1. unfold io_bind at 1.
  rewrite (read_amount_step fuel w a (c :: d :: e :: rest) Hin), Ha. simpl.
  rewrite Hpos.
  unfold mbind at 1. unfold io_bind at 1.
  erewrite input_prompt_step by reflexivity.
  unfold mbind at 1. unfold io_bind at 1.
  erewrite input_prompt_step by reflexivity.
  unfold mbind at 1. unfold io_bind at 1.
  erewrite input_prompt_step by reflexivity.
  simpl. by rewrite <- !app_assoc.
Qed.

(** X15: when a positive amount, a category, a date that [parse_date]
    accepts and a description are typed, option 1 appends the Income with
    these fields, stripped of surrounding blanks, raises the balance by the
    amount and prints the message of success; option 2 appends the Expense
    and lowers the balance.  The four lines are read and no other. *)
Theorem add_transaction_typed (fuel : nat) (w : world) (a c d e : string)
    (rest : list string) (amt : float64) (dt : datetime) :
  stdin w = a :: c :: d :: e :: rest →
  float (strip a) = Some amt →
  0 < amt →
  parse_date (strip d) = Return dt →
  add_transaction float Income (S fuel) w =
    (Ok tt,
     mk_world
       (mk_Account (balance (ledger w) + amt)
          (transactions (ledger w) ++ [Income amt (strip c) dt (strip e)]))
       rest
       (stdout w ++ ["Amount: "; "Category: "; "Date (DD-MM-YYYY): ";
                     "Description (optional): ";
                     "Transaction added successfully!" +:+ newline])) ∧
  add_transaction float Expense (S fuel) w =
    (Ok tt,
     mk_world
       (mk_Account (balance (ledger w) - amt)
          (transactions (ledger w) ++ [Expense amt (strip c) dt (strip e)]))
       rest
       (stdout w ++ ["Amount: "; "Category: "; "Date (DD-MM-YYYY): ";
                     "Description (optional): ";
                     "Transaction added successfully!" +:+ newline])).
Proof.
  intros Hin Ha Hpos Hd.
  pose proof (lt_zero_not_le amt Hpos) as Hle.
  split; rewrite (add_transaction_fields _ fuel w a c d e rest amt Hin Ha Hpos);
    unfold try_except_ValueError, mbind, io_bind, of_outcome, on_account, add;
    rewrite Hd; simpl; rewrite Hle; simpl; by rewrite <- !app_assoc.
Qed.

(** X16: when the date typed is one that [parse_date] refuses, options 1
    and 2 print "Error: Invalid date format. Use DD-MM-YYYY." and leave the
    account as it was; the four lines are read all the same. *)
Theorem add_transaction_bad_date
    (make : float64 → string → datetime → string → Transaction) (fuel : nat)
    (w : world) (a c d e : string) (rest : list string) (amt : float64) :
  stdin w = a :: c :: d :: e :: rest →
  float (strip a) = Some amt →
  0 < amt →
  (∀ dt, parse_date (strip d) ≠ Return dt) →
  add_transaction float make (S fuel) w =
    (Ok tt,
     mk_world (ledger w) rest
       (stdout w ++ ["Amount: "; "Category: "; "Date (DD-MM-YYYY): ";
                     "Description (optional): ";
                     "Error: Invalid date format. Use DD-MM-YYYY." +:+ newline])).
Proof.
  intros Hin Ha Hpos Hd.
  rewrite (add_transaction_fields _ fuel w a c d e rest amt Hin Ha Hpos).
  unfold try_except_ValueError, mbind, io_bind, of_outcome.
  assert (parse_date (strip d) =
          Raise (ValueError "Invalid date format. Use DD-MM-YYYY.")) as E.
  { unfold parse_date in *.
    destruct (strptime (strip d)) as [dt|]; [by destruct (Hd dt)|done]. }
  rewrite E. unfold print. simpl. by rewrite <- !app_assoc.
Qed.

(** ** [main] *)

(** X17: no exception of the program leaves [main]: whatever is typed,
    the [ValueError]s of [parse_date] and [add] are caught and
    [NotImplementedError] is never raised.  [main] returns, or stops with
    the [EOFError] of [input], or is still running when the iterations
    granted to it are used up. *)
Theorem main_raises_nothing (fuel : nat) (w : world) :
  ∃ r w',
    main float format_2f fuel w = (r, w') ∧
    (r = Ok tt ∨ r = Stop EOFError ∨ r = Stop OutOfFuel).
Proof.
  pose proof (main_judged fuel w) as Hj.
  destruct (main float format_2f fuel w) as [[[]|[e| |]] w'];
    [|done| |]; eexists _, _; (split; [reflexivity|]); auto.
Qed.

(** X18: [main] ends on every finite input: granted more iterations than
    there are lines, it returns, after option 5, or stops with the
    [EOFError] of [input], with all lines read. *)
Theorem main_ends (fuel : nat) (w : world) :
  (length (stdin w) < fuel)%nat →
  (∃ w', main float format_2f fuel w = (Ok tt, w')) ∨
  (∃ w', main float format_2f fuel w = (Stop EOFError, w') ∧ stdin w' = []).
Proof.
  intros Hfuel. pose proof (main_judged fuel w) as Hj.
  destruct (main float format_2f fuel w) as [[[]|[e| |]] w'].
  - left. by exists w'.
  - done.
  - right. exists w'. by destruct Hj.
  - destruct Hj as [_ Hj]. lia.
Qed.

(** X19: however [main] ends, its account was reached by successful calls
    of [add]: the balance is the running balance of the stored transactions
    (from 0, each Income added and each Expense subtracted in the order of
    the ledger), and every stored transaction is an Income or an Expense
    with an amount greater than zero and a date of the calendar.  Unlike
    [add], [read_amount] lets no NaN through, since it tests
    [amt > 0]. *)
Theorem main_account (fuel : nat) (w : world) :
  ∃ txs,
    let acc := ledger (main float format_2f fuel w).2 in
    history acc txs ∧
    transactions acc = txs ∧
    balance acc = running_balance txs ∧
    ∀ tx, tx ∈ txs →
      0 < amount tx ∧
      (class_of tx = IncomeCls ∨ class_of tx = ExpenseCls) ∧
      calendar_date (date tx).
Proof.
  pose proof (main_judged fuel w) as Hj.
  assert (sound (ledger (main float format_2f fuel w).2)) as (txs & Hh & Hd).
  { destruct (main float format_2f fuel w) as [[[]|[e| |]] w']; simpl;
      tauto. }
  exists txs. simpl.
  destruct (history_invariant _ txs Hh) as (Htx & Hbal & Hall).
  split; [done|]. split; [done|]. split; [done|].
  intros tx Hin. destruct (Hall tx Hin) as [_ Hc].
  destruct (Hd tx Hin) as [Hpos Hdate]. done.
Qed.

End ConsoleProperties.

(** ** The theorems of the console on the sample session *)

Lemma read_amount_positive_witness :
  0 < float_of_Z 1000 ∧
  ledger (read_amount sample_float 3 sample_world).2 = ledger sample_world.
Proof.
  apply (read_amount_positive sample_float 3 sample_world
           (read_amount sample_float 3 sample_world).2 (float_of_Z 1000)).
  vm_compute. reflexivity.
Defined.

Lemma read_amount_first_valid_witness :
  ∃ out,
    read_amount sample_float 3 sample_world =
      (Ok (float_of_Z 1000),
       mk_world (ledger sample_world)
         [" Salary "; "01-03-2024"; EmptyString; "5"]
         (stdout sample_world ++ out)) ∧
    length out = (2 * length ["abc"; "-50"] + 1)%nat.
Proof.
  apply (read_amount_first_valid sample_float 3 sample_world
           ["abc"; "-50"] " 1000 "
           [" Salary "; "01-03-2024"; EmptyString; "5"] (float_of_Z 1000)).
  - reflexivity.
  - repeat constructor.
  - reflexivity.
  - reflexivity.
  - simpl. lia.
Defined.

Lemma add_transaction_typed_witness :
  add_transaction sample_float Income 1
    (mk_world Account_new ["1000"; " Salary "; "01-03-2024"; EmptyString; "5"] []) =
    (Ok tt,
     mk_world
       (mk_Account (0 + float_of_Z 1000)
          ([] ++ [Income (float_of_Z 1000) (strip " Salary ") (mk_datetime 2024 3 1)
                    (strip EmptyString)]))
       ["5"]
       ([] ++ ["Amount: "; "Category: "; "Date (DD-MM-YYYY): ";
               "Description (optional): ";
               "Transaction added successfully!" +:+ newline])) ∧
  add_transaction sample_float Expense 1
    (mk_world Account_new ["1000"; " Salary "; "01-03-2024"; EmptyString; "5"] []) =
    (Ok tt,
     mk_world
       (mk_Account (0 - float_of_Z 1000)
          ([] ++ [Expense (float_of_Z 1000) (strip " Salary ") (mk_datetime 2024 3 1)
                    (strip EmptyString)]))
       ["5"]
       ([] ++ ["Amount: "; "Category: "; "Date (DD-MM-YYYY): ";
               "Description (optional): ";
               "Transaction added successfully!" +:+ newline])).
Proof.
  apply (add_transaction_typed sample_float 0
           (mk_world Account_new
              ["1000"; " Salary "; "01-03-2024"; EmptyString; "5"] [])
           "1000" " Salary " "01-03-2024" EmptyString ["5"] (float_of_Z 1000)
           (mk_datetime 2024 3 1)).
  - reflexivity.
  - reflexivity.
  - reflexivity.
  - vm_compute. reflexivity.
Defined.

Lemma add_transaction_bad_date_witness :
  add_transaction sample_float Expense 1
    (mk_world Account_new ["1000"; "Food"; "31-04-2024"; EmptyString] []) =
    (Ok tt,
     mk_world Account_new []
       ([] ++ ["Amount: "; "Category: "; "Date (DD-MM-YYYY): ";
               "Description (optional): ";
               "Error: Invalid date format. Use DD-MM-YYYY." +:+ newline])).
Proof.
  apply (add_transaction_bad_date sample_float Expense 0
           (mk_world Account_new ["1000"; "Food"; "31-04-2024"; EmptyString] [])
           "1000" "Food" "31-04-2024" EmptyString [] (float_of_Z 1000)).
  - reflexivity.
  - reflexivity.
  - reflexivity.
  - intros dt H. vm_compute in H. discriminate.
Defined.

Lemma main_ends_witness :
  (∃ w', main sample_float sample_format_2f 8 sample_session = (Ok tt, w')) ∨
  (∃ w', main sample_float sample_format_2f 8 sample_session = (Stop EOFError, w') ∧
         stdin w' = []).
Proof.
  apply (main_ends sample_float sample_format_2f 8 sample_session).
  simpl. lia.
Defined.
